(** * TolKI: usage ledger, usage-tracking hook and audio visualizer

    A shallow embedding of
    - [convex/usageSessions.ts]   (the credit ledger's mutations),
    - the two versions of the [useTrackUsage] hook (60 s heartbeat with
      [incrementSessionCredits], and 3 s heartbeat with
      [updateFractionalCredits]),
    - [src/components/AudioVisualizer.tsx] (metering recorder and the
      speech/silence indicator),
    together with the properties the design document states about them.

    Conventions.
    - A JavaScript [number] holding credits or a decibel level is a
      rational ([Q]).  What is stated of such numbers is what rounding
      leaves alone: comparisons, bounds that leave room for it, and sums
      and differences of whole numbers.  Timestamps ([Date.now()]) are
      integers ([Z]).
    - A Convex mutation runs as a transaction: the writes of a handler
      that throws are discarded ([Ledger.mutation], [Hook.call]).
    - [async] functions are run to completion one after the other: a
      handler is a function from the store before to the outcome and the
      store after.  [throw] is the [Threw] outcome, [try/catch] is
      [try_catch].
    - A React state variable ([const [x, setX] = useState(..)]) is a
      constant of the render that created the closure; [setX] writes the
      store read by the next render.  A ref ([useRef]) is a cell shared by
      all renders. *)

From Stdlib Require Import List String ZArith QArith Qminmax Bool Arith Lia Lqa.
Import ListNotations.

(** ** Outcomes and the store-passing monad *)

Inductive Outcome (S A : Type) : Type :=
| Returned (a : A) (s : S)
| Threw (msg : string) (s : S).

Arguments Returned {S A} a s.
Arguments Threw {S A} msg s.

Definition M (S A : Type) : Type := S -> Outcome S A.

Definition ret {S A} (a : A) : M S A := fun s => Returned a s.

Definition bind {S A B} (m : M S A) (k : A -> M S B) : M S B :=
  fun s =>
    match m s with
    | Returned a s' => k a s'
    | Threw msg s' => Threw msg s'
    end.

Definition throw {S A} (msg : string) : M S A := fun s => Threw msg s.

Definition gets {S A} (f : S -> A) : M S A := fun s => Returned (f s) s.

Definition modify {S} (f : S -> S) : M S unit := fun s => Returned tt (f s).

(** [try { body } catch (error) { handler }] *)
Definition try_catch {S A} (body : M S A) (handler : string -> M S A) : M S A :=
  fun s =>
    match body s with
    | Returned a s' => Returned a s'
    | Threw msg s' => handler msg s'
    end.

(** [for (const x of xs) { body x }] *)
Fixpoint for_each {S A} (xs : list A) (body : A -> M S unit) : M S unit :=
  match xs with
  | [] => ret tt
  | x :: rest => bind (body x) (fun _ => for_each rest body)
  end.

Declare Scope monad_scope.
Delimit Scope monad_scope with monad.
Notation "x <- m ;; k" := (bind m (fun x => k))
  (at level 100, m at next level, right associativity) : monad_scope.
Notation "m ;;; k" := (bind m (fun _ => k))
  (at level 100, right associativity) : monad_scope.

Definition state_of {S A} (o : Outcome S A) : S :=
  match o with
  | Returned _ s => s
  | Threw _ s => s
  end.

Definition threw {S A} (o : Outcome S A) : bool :=
  match o with
  | Returned _ _ => false
  | Threw _ _ => true
  end.

(** ** The ledger: [convex/usageSessions.ts] *)

Module Ledger.

Open Scope monad_scope.

(** Document ids.  Convex hands out opaque ids; here they are numbers. *)
Definition Id : Type := nat.

(** A document of table [users]; only the fields the mutations touch. *)
Record User : Type := mkUser {
  user_id : Id;
  clerkId : string;
  credits : Q;
  lastActive : Z
}.

(** A document of table [usageSessions]. *)
Record UsageSession : Type := mkSession {
  session_id : Id;
  userId : Id;
  creditsUsed : Q;
  languageFrom : string;
  languageTo : string;
  startedAt : Z;
  endedAt : option Z;
  isActive : bool
}.

(** The database: each table lists its documents in creation order, which
    is the order in which an index returns documents with equal keys. *)
Record Db : Type := mkDb {
  users : list User;
  usageSessions : list UsageSession
}.

(** [ctx.db.query("users").withIndex("by_clerk_id", q => q.eq("clerkId", c))] *)
Definition users_by_clerk_id (c : string) (db : Db) : list User :=
  filter (fun u => String.eqb (clerkId u) c) (users db).

Definition is_active_of (uid : Id) (s : UsageSession) : bool :=
  Nat.eqb (userId s) uid && Bool.eqb (isActive s) true.

(** [ctx.db.query("usageSessions").withIndex("by_active",
      q => q.eq("userId", uid).eq("isActive", true))] *)
Definition sessions_by_active (uid : Id) (db : Db) : list UsageSession :=
  filter (is_active_of uid) (usageSessions db).

(** [.first()] and [.collect()] *)
Definition first {A} (q : Db -> list A) : M Db (option A) :=
  gets (fun db => hd_error (q db)).

Definition collect {A} (q : Db -> list A) : M Db (list A) := gets q.

(** [ctx.db.get(id)] on table [usageSessions] *)
Definition session_of (id : Id) (db : Db) : option UsageSession :=
  find (fun s => Nat.eqb (session_id s) id) (usageSessions db).

Definition get_session (id : Id) : M Db (option UsageSession) :=
  gets (session_of id).

(** The patch objects of the source. *)
Definition patch_ended (now : Z) (s : UsageSession) : UsageSession :=
  {| session_id := session_id s;
     userId := userId s;
     creditsUsed := creditsUsed s;
     languageFrom := languageFrom s;
     languageTo := languageTo s;
     startedAt := startedAt s;
     endedAt := Some now;
     isActive := false |}.

Definition patch_creditsUsed (c : Q) (s : UsageSession) : UsageSession :=
  {| session_id := session_id s;
     userId := userId s;
     creditsUsed := c;
     languageFrom := languageFrom s;
     languageTo := languageTo s;
     startedAt := startedAt s;
     endedAt := endedAt s;
     isActive := isActive s |}.

Definition patch_credits (c : Q) (now : Z) (u : User) : User :=
  {| user_id := user_id u;
     clerkId := clerkId u;
     credits := c;
     lastActive := now |}.

Definition patch_in {A} (key : A -> Id) (id : Id) (f : A -> A) (tbl : list A) : list A :=
  map (fun d => if Nat.eqb (key d) id then f d else d) tbl.

(** [ctx.db.patch(id, {...})] *)
Definition patch_session (id : Id) (f : UsageSession -> UsageSession) : M Db unit :=
  modify (fun db =>
    {| users := users db;
       usageSessions := patch_in session_id id f (usageSessions db) |}).

Definition patch_user (id : Id) (f : User -> User) : M Db unit :=
  modify (fun db =>
    {| users := patch_in user_id id f (users db);
       usageSessions := usageSessions db |}).

(** The id of the next document: one not used in the table yet. *)
Definition fresh_id (tbl : list UsageSession) : Id :=
  S (list_max (map session_id tbl)).

(** [ctx.db.insert("usageSessions", {...})]: the document joins the end
    of the table, under a new id, which is returned. *)
Definition insert_session (mk : Id -> UsageSession) : M Db Id :=
  fun db =>
    let id := fresh_id (usageSessions db) in
    Returned id {| users := users db;
                   usageSessions := usageSessions db ++ [mk id] |}.

(** The table after the loop of [startSession]: the documents whose id
    is among [ids] have been patched. *)
Definition ended_if (ids : list Id) (now : Z) (s : UsageSession) : UsageSession :=
  if existsb (Nat.eqb (session_id s)) ids then patch_ended now s else s.

Record StartArgs : Type := mkStartArgs {
  arg_clerkId : string;
  arg_languageFrom : string;
  arg_languageTo : string
}.

(** [startSession]; [now] is the value of [Date.now()]. *)
Definition startSession (args : StartArgs) (now : Z) : M Db Id :=
  user <- first (users_by_clerk_id (arg_clerkId args)) ;;
  match user with
  | None => throw "User not found"
  | Some user =>
      if Qle_bool (credits user) 0 then throw "Insufficient credits"
      else
        activeSessions <- collect (sessions_by_active (user_id user)) ;;
        for_each activeSessions
          (fun session => patch_session (session_id session) (patch_ended now)) ;;;
        sessionId <- insert_session (fun id =>
          {| session_id := id;
             userId := user_id user;
             creditsUsed := 0;
             languageFrom := arg_languageFrom args;
             languageTo := arg_languageTo args;
             startedAt := now;
             endedAt := None;
             isActive := true |}) ;;
        ret sessionId
  end.

(** What [endSession] returns: nothing on the early return, the final
    details otherwise. *)
Record FinalDetails : Type := mkFinal {
  final_creditsUsed : Q;
  duration : Z
}.

Definition endSession (sessionId : Id) (now : Z) : M Db (option FinalDetails) :=
  session <- get_session sessionId ;;
  match session with
  | None => throw "Session not found"
  | Some session =>
      if negb (isActive session) then ret None
      else
        patch_session sessionId (patch_ended now) ;;;
        ret (Some {| final_creditsUsed := creditsUsed session;
                     duration := now - startedAt session |})
  end.

Record IncrementResult : Type := mkIncr {
  creditsRemaining : Q;
  sessionCreditsUsed : Q
}.

Definition incrementSessionCredits (clerk : string) (now : Z) : M Db IncrementResult :=
  user <- first (users_by_clerk_id clerk) ;;
  match user with
  | None => throw "User not found"
  | Some user =>
      activeSession <- first (sessions_by_active (user_id user)) ;;
      match activeSession with
      | None => throw "No active session found"
      | Some activeSession =>
          if Qle_bool (credits user) 0 then
            patch_session (session_id activeSession) (patch_ended now) ;;;
            throw "Insufficient credits - session ended"
          else
            patch_user (user_id user) (patch_credits (credits user - 1) now) ;;;
            patch_session (session_id activeSession)
              (patch_creditsUsed (creditsUsed activeSession + 1)) ;;;
            ret {| creditsRemaining := credits user - 1;
                   sessionCreditsUsed := creditsUsed activeSession + 1 |}
      end
  end.

(** [mutation({ args, handler })]: the runtime runs the handler of a
    mutation as a transaction.  When the handler throws, the writes it has
    made are discarded and the caller gets the error. *)
Definition mutation {A} (handler : M Db A) : M Db A :=
  fun db =>
    match handler db with
    | Returned a db' => Returned a db'
    | Threw msg _ => Threw msg db
    end.

(** [getActiveSession] (a query: it reads only). *)
Definition getActiveSession (clerk : string) (db : Db) : option UsageSession :=
  match hd_error (users_by_clerk_id clerk db) with
  | None => None
  | Some user => hd_error (sessions_by_active (user_id user) db)
  end.

(** [ctx.db.query("usageSessions").withIndex("by_user",
      q => q.eq("userId", uid))] *)
Definition sessions_by_user (uid : Id) (db : Db) : list UsageSession :=
  filter (fun s => Nat.eqb (userId s) uid) (usageSessions db).




(** [getCreditsUsedToday]; [todayStartTime] is the local midnight the
    handler computes from [new Date()]. *)
Definition getCreditsUsedToday (clerk : string) (todayStartTime : Z) (db : Db) : Q :=
  match hd_error (users_by_clerk_id clerk db) with
  | None => 0
  | Some user =>
      let sessions := sessions_by_user (user_id user) db in
      let todaySessions :=
        filter (fun session => Z.leb todayStartTime (startedAt session)) sessions in
      fold_left (fun sum session => sum + creditsUsed session) todaySessions 0
  end.

(** The document [startSession] inserts for [user] under the id [sid]. *)
Definition inserted_by (args : StartArgs) (now : Z) (user : User) (sid : Id)
    : UsageSession :=
  {| session_id := sid;
     userId := user_id user;
     creditsUsed := 0;
     languageFrom := arg_languageFrom args;
     languageTo := arg_languageTo args;
     startedAt := now;
     endedAt := None;
     isActive := true |}.

(** Sums over the tables, and the uniqueness of document ids that the
    database guarantees. *)
Definition Qsum (l : list Q) : Q := fold_right Qplus 0 l.

Definition credits_held (db : Db) : Q := Qsum (map credits (users db)).

Definition credits_spent (db : Db) : Q := Qsum (map creditsUsed (usageSessions db)).

Definition ids_unique (db : Db) : Prop :=
  NoDup (map user_id (users db)) /\ NoDup (map session_id (usageSessions db)).

(** The numbers on which the arithmetic of the mutations is exact: the
    whole numbers from 0 to 2^53. *)
Definition whole (q : Q) : Prop :=
  exists n : Z, (0 <= n <= 2 ^ 53)%Z /\ q == inject_Z n.

(** Balances and usage are whole numbers, and one more credit of usage
    still adds up to a number of that range. *)
Definition whole_books (db : Db) : Prop :=
  (forall u, In u (users db) -> whole (credits u))
  /\ (forall s, In s (usageSessions db) -> whole (creditsUsed s))
  /\ credits_spent db + 1 <= inject_Z (2 ^ 53).

End Ledger.

(** ** The usage-tracking hook: [useTrackUsage]

    Two versions of the hook are in the repository.  [PerMinute] is the one
    that calls [incrementSessionCredits] every 60 seconds, [PerSecond] the
    one that calls [updateFractionalCredits] every 3 seconds. *)

Module Hook.

Open Scope monad_scope.

Definition TimerId : Type := nat.

(** The mutations the hook sends to the ledger, with their arguments. *)
Inductive LedgerCall : Type :=
| CallStartSession (args : Ledger.StartArgs)
| CallEndSession (sessionId : Ledger.Id)
| CallIncrementSessionCredits (clerkId : string)
| CallUpdateFractionalCredits (clerkId : string) (secondsToAdd : Q).

(** The state variables of the hook ([useState]).  [sessionSecondsUsed]
    exists in the 3-second version only. *)
Record HookState : Type := mkHookState {
  sessionId : option Ledger.Id;
  isTracking : bool;
  sessionCreditsUsed : Q;
  sessionSecondsUsed : Q
}.

(** What a closure created by one render of the hook has captured: the
    render's [clerkUser?.id] and the render's constant [sessionId].
    [startTracking], [stopTracking] and the interval callback of one
    render share one such environment. *)
Record Closure : Type := mkClosure {
  clerkUser_id : option string;
  captured_sessionId : option Ledger.Id
}.

(** Everything the hook can read or change.
    - [react]: the state store, written by the setters, read by the next
      render;
    - [intervalRef], [startTimeRef]: the [.current] of the refs
      ([startTimeRef] exists in the 3-second version only);
    - [timers]: the intervals that are registered, each with the
      environment of its callback;
    - [ledger]: the database behind the mutations; [calls]: the mutations
      sent so far, latest last;
    - [clock]: [Date.now()]. *)
Record World : Type := mkWorld {
  react : HookState;
  intervalRef : option TimerId;
  startTimeRef : option Z;
  timers : list (TimerId * Closure);
  ledger : Ledger.Db;
  calls : list LedgerCall;
  clock : Z
}.

Definition with_react (f : HookState -> HookState) (w : World) : World :=
  {| react := f (react w); intervalRef := intervalRef w;
     startTimeRef := startTimeRef w; timers := timers w;
     ledger := ledger w; calls := calls w; clock := clock w |}.

Definition with_intervalRef (r : option TimerId) (w : World) : World :=
  {| react := react w; intervalRef := r;
     startTimeRef := startTimeRef w; timers := timers w;
     ledger := ledger w; calls := calls w; clock := clock w |}.

Definition with_startTimeRef (r : option Z) (w : World) : World :=
  {| react := react w; intervalRef := intervalRef w;
     startTimeRef := r; timers := timers w;
     ledger := ledger w; calls := calls w; clock := clock w |}.

Definition with_timers (f : list (TimerId * Closure) -> list (TimerId * Closure))
    (w : World) : World :=
  {| react := react w; intervalRef := intervalRef w;
     startTimeRef := startTimeRef w; timers := f (timers w);
     ledger := ledger w; calls := calls w; clock := clock w |}.

Definition with_ledger (db : Ledger.Db) (c : LedgerCall) (w : World) : World :=
  {| react := react w; intervalRef := intervalRef w;
     startTimeRef := startTimeRef w; timers := timers w;
     ledger := db; calls := calls w ++ [c]; clock := clock w |}.

(** The setters returned by [useState]. *)
Definition setSessionId (v : option Ledger.Id) : M World unit :=
  modify (with_react (fun r =>
    {| sessionId := v; isTracking := isTracking r;
       sessionCreditsUsed := sessionCreditsUsed r;
       sessionSecondsUsed := sessionSecondsUsed r |})).

Definition setIsTracking (v : bool) : M World unit :=
  modify (with_react (fun r =>
    {| sessionId := sessionId r; isTracking := v;
       sessionCreditsUsed := sessionCreditsUsed r;
       sessionSecondsUsed := sessionSecondsUsed r |})).

Definition setSessionCreditsUsed (v : Q) : M World unit :=
  modify (with_react (fun r =>
    {| sessionId := sessionId r; isTracking := isTracking r;
       sessionCreditsUsed := v;
       sessionSecondsUsed := sessionSecondsUsed r |})).

Definition setSessionSecondsUsed (v : Q) : M World unit :=
  modify (with_react (fun r =>
    {| sessionId := sessionId r; isTracking := isTracking r;
       sessionCreditsUsed := sessionCreditsUsed r;
       sessionSecondsUsed := v |})).

(** [setInterval(callback, ms)]: registers the callback (its environment)
    under a new timer id. *)
Definition setInterval (env : Closure) : M World TimerId :=
  fun w =>
    let t := S (list_max (map fst (timers w))) in
    Returned t (with_timers (fun ts => ts ++ [(t, env)]) w).

(** [clearInterval(t)] *)
Definition clearInterval (t : TimerId) : M World unit :=
  modify (with_timers (filter (fun p => negb (Nat.eqb (fst p) t)))).

(** Calling a mutation obtained from [useMutation]: the call is recorded,
    the handler runs on the ledger at the current time.  A Convex
    mutation is a transaction: when the handler throws, its writes are
    discarded and the caller gets the error. *)
Definition call {A} (c : LedgerCall) (handler : Z -> M Ledger.Db A) : M World A :=
  fun w =>
    match handler (clock w) (ledger w) with
    | Returned a db' => Returned a (with_ledger db' c w)
    | Threw msg _ => Threw msg (with_ledger (ledger w) c w)
    end.

(** Another client of the same ledger runs a mutation. *)
Definition elsewhere {A} (handler : Z -> M Ledger.Db A) : M World unit :=
  fun w =>
    match handler (clock w) (ledger w) with
    | Returned _ db' =>
        Returned tt {| react := react w; intervalRef := intervalRef w;
                       startTimeRef := startTimeRef w; timers := timers w;
                       ledger := db'; calls := calls w; clock := clock w |}
    | Threw _ _ => Returned tt w
    end.

(** Time passes. *)
Definition elapse (ms : Z) : M World unit :=
  modify (fun w =>
    {| react := react w; intervalRef := intervalRef w;
       startTimeRef := startTimeRef w; timers := timers w;
       ledger := ledger w; calls := calls w; clock := (clock w + ms)%Z |}).

(** The render: the environment its closures capture. *)
Definition render (clerk : option string) (w : World) : Closure :=
  {| clerkUser_id := clerk; captured_sessionId := sessionId (react w) |}.

(** How often a mutation was sent for a given session. *)
Definition is_endSession_of (sid : Ledger.Id) (c : LedgerCall) : bool :=
  match c with
  | CallEndSession s => Nat.eqb s sid
  | _ => false
  end.

Definition endSession_calls (sid : Ledger.Id) (w : World) : nat :=
  List.length (filter (is_endSession_of sid) (calls w)).

Definition timer_live (t : TimerId) (w : World) : bool :=
  existsb (fun p => Nat.eqb (fst p) t) (timers w).

(** What a call tells the ledger about the session it is for, and about
    the time streamed. *)
Definition is_heartbeat (c : LedgerCall) : bool :=
  match c with
  | CallIncrementSessionCredits _ | CallUpdateFractionalCredits _ _ => true
  | _ => false
  end.

Definition session_handle_of (c : LedgerCall) : option Ledger.Id :=
  match c with
  | CallEndSession sid => Some sid
  | _ => None
  end.

Definition seconds_of (c : LedgerCall) : option Q :=
  match c with
  | CallUpdateFractionalCredits _ s => Some s
  | _ => None
  end.

(** How many heartbeats were sent. *)
Definition heartbeats (w : World) : nat :=
  List.length (filter is_heartbeat (calls w)).

End Hook.

Module PerMinute.

Import Hook.
Open Scope monad_scope.

Section WithHeartbeat.

(** [incrementCredits = useMutation(api.usageSessions.incrementSessionCredits)] *)
Variable incrementCredits : string -> Z -> M Ledger.Db Ledger.IncrementResult.

(** [stopTracking] of the render with environment [env]. *)
Definition stopTracking (env : Closure) : M World unit :=
  current <- gets intervalRef ;;
  match current with
  | Some t => clearInterval t ;;; modify (with_intervalRef None)
  | None => ret tt
  end ;;;
  match captured_sessionId env with
  | Some sessionId =>
      try_catch
        (result <- call (CallEndSession sessionId) (Ledger.endSession sessionId) ;;
         ret tt)
        (fun error => ret tt)
  | None => ret tt
  end ;;;
  setIsTracking false ;;;
  setSessionId None ;;;
  setSessionCreditsUsed 0.

(** What the interval callback does with the answer of the heartbeat:
    the body of its [try] after the [await]. *)
Definition on_result (env : Closure) (result : Ledger.IncrementResult) : M World unit :=
  setSessionCreditsUsed (Ledger.sessionCreditsUsed result) ;;;
  if Qeq_bool (Ledger.creditsRemaining result) 0 then stopTracking env
  else ret tt.

(** The callback given to [setInterval] by [startTracking] of the render
    with environment [env]; [clerk] is that render's [clerkUser.id]. *)
Definition interval_callback (env : Closure) (clerk : string) : M World unit :=
  try_catch
    (result <- call (CallIncrementSessionCredits clerk) (incrementCredits clerk) ;;
     on_result env result)
    (fun error => stopTracking env).

(** [startTracking] of the render with environment [env]. *)
Definition startTracking (env : Closure) (languageFrom languageTo : string)
    : M World Ledger.Id :=
  match clerkUser_id env with
  | None => throw "User not authenticated"
  | Some clerk =>
      try_catch
        (let args := {| Ledger.arg_clerkId := clerk;
                        Ledger.arg_languageFrom := languageFrom;
                        Ledger.arg_languageTo := languageTo |} in
         newSessionId <- call (CallStartSession args) (Ledger.startSession args) ;;
         setSessionId (Some newSessionId) ;;;
         setIsTracking true ;;;
         setSessionCreditsUsed 0 ;;;
         t <- setInterval env ;;
         modify (with_intervalRef (Some t)) ;;;
         ret newSessionId)
        (fun error => throw error)
  end.

(** The interval [t] fires: its callback runs, if [t] is still
    registered. *)
Definition fire (t : TimerId) : M World unit :=
  registered <- gets (fun w => find (fun p => Nat.eqb (fst p) t) (timers w)) ;;
  match registered with
  | Some (_, env) =>
      match clerkUser_id env with
      | Some clerk => interval_callback env clerk
      | None => ret tt
      end
  | None => ret tt
  end.

End WithHeartbeat.

(** The hook as deployed, on the ledger of [convex/usageSessions.ts]. *)
Definition heartbeat := Ledger.incrementSessionCredits.

(** The cleanup of [useEffect(.., [])], run when the component unmounts. *)
Definition unmount : M World unit :=
  current <- gets intervalRef ;;
  match current with
  | Some t => clearInterval t
  | None => ret tt
  end.



End PerMinute.

Module PerSecond.

Import Hook.
Open Scope monad_scope.

(** The answer of [updateFractionalCredits], as the hook reads it. *)
Record FractionalResult : Type := mkFractional {
  creditsRemaining : Q;
  sessionCreditsUsed : Q;
  secondsUsed : Q
}.

(** [0.05], the minimum charge. *)
Definition MINIMUM_CHARGE : Q := 5 # 100.

Section WithHeartbeat.

(** [updateFractionalCredits =
      useMutation(api.usageSessions.updateFractionalCredits)].
    The mutation itself is not part of [convex/usageSessions.ts]; the hook
    is modelled for any handler with these arguments and this answer. *)
Variable updateFractionalCredits :
  string -> Q -> Z -> M Ledger.Db FractionalResult.

Definition stopTracking (env : Closure) : M World unit :=
  current <- gets intervalRef ;;
  match current with
  | Some t => clearInterval t ;;; modify (with_intervalRef None)
  | None => ret tt
  end ;;;
  match captured_sessionId env with
  | Some sessionId =>
      try_catch
        (result <- call (CallEndSession sessionId) (Ledger.endSession sessionId) ;;
         ret tt)
        (fun error => ret tt)
  | None => ret tt
  end ;;;
  setIsTracking false ;;;
  setSessionId None ;;;
  setSessionCreditsUsed 0 ;;;
  setSessionSecondsUsed 0 ;;;
  modify (with_startTimeRef None).

Definition on_result (env : Closure) (result : FractionalResult) : M World unit :=
  setSessionCreditsUsed (sessionCreditsUsed result) ;;;
  setSessionSecondsUsed (secondsUsed result) ;;;
  if Qle_bool (creditsRemaining result) MINIMUM_CHARGE then stopTracking env
  else ret tt.

(** [Math.floor((Date.now() - (startTimeRef.current || Date.now())) / 1000)];
    the callback computes it and does not use it. *)
Definition actualSeconds (w : World) : Z :=
  let start := match startTimeRef w with
               | Some 0%Z | None => clock w
               | Some s => s
               end in
  ((clock w - start) / 1000)%Z.

Definition secondsToAdd : Q := 3.

Definition interval_callback (env : Closure) (clerk : string) : M World unit :=
  try_catch
    (_actualSeconds <- gets actualSeconds ;;
     result <- call (CallUpdateFractionalCredits clerk secondsToAdd)
                    (updateFractionalCredits clerk secondsToAdd) ;;
     on_result env result)
    (fun error => stopTracking env).

Definition startTracking (env : Closure) (languageFrom languageTo : string)
    : M World Ledger.Id :=
  match clerkUser_id env with
  | None => throw "User not authenticated"
  | Some clerk =>
      try_catch
        (let args := {| Ledger.arg_clerkId := clerk;
                        Ledger.arg_languageFrom := languageFrom;
                        Ledger.arg_languageTo := languageTo |} in
         newSessionId <- call (CallStartSession args) (Ledger.startSession args) ;;
         setSessionId (Some newSessionId) ;;;
         setIsTracking true ;;;
         setSessionCreditsUsed MINIMUM_CHARGE ;;;
         setSessionSecondsUsed 3 ;;;
         now <- gets clock ;;
         modify (with_startTimeRef (Some now)) ;;;
         t <- setInterval env ;;
         modify (with_intervalRef (Some t)) ;;;
         ret newSessionId)
        (fun error => throw error)
  end.

Definition fire (t : TimerId) : M World unit :=
  registered <- gets (fun w => find (fun p => Nat.eqb (fst p) t) (timers w)) ;;
  match registered with
  | Some (_, env) =>
      match clerkUser_id env with
      | Some clerk => interval_callback env clerk
      | None => ret tt
      end
  | None => ret tt
  end.

End WithHeartbeat.

End PerSecond.

(** ** The audio visualizer: [src/components/AudioVisualizer.tsx] *)

Module AudioVisualizer.

Open Scope monad_scope.

Definition NUM_DOTS : nat := 13.

(** dB threshold for speech detection *)
Definition SPEECH_THRESHOLD : Q := -40.

(** *** The recording options given to [prepareToRecordAsync]

    Of the enumerations of the audio library, the members the source
    names. *)

Inductive AndroidOutputFormat : Type := AAC_ADTS.
Inductive AndroidAudioEncoder : Type := AAC.
Inductive IOSOutputFormat : Type := MPEG4AAC.
Inductive IOSAudioQuality : Type := HIGH.

Record AndroidOptions : Type := mkAndroid {
  android_extension : string;
  android_outputFormat : AndroidOutputFormat;
  android_audioEncoder : AndroidAudioEncoder;
  android_sampleRate : Z;
  android_numberOfChannels : Z;
  android_bitRate : Z
}.

Record IOSOptions : Type := mkIOS {
  ios_extension : string;
  ios_outputFormat : IOSOutputFormat;
  ios_audioQuality : IOSAudioQuality;
  ios_sampleRate : Z;
  ios_numberOfChannels : Z;
  ios_bitRate : Z
}.

Record WebOptions : Type := mkWeb {
  web_mimeType : string;
  web_bitsPerSecond : Z
}.

Record RecordingOptions : Type := mkOptions {
  android : AndroidOptions;
  ios : IOSOptions;
  web : WebOptions;
  isMeteringEnabled : bool
}.

(** The object literal of [startMonitoring]. *)
Definition recordingOptions : RecordingOptions :=
  {| android := {| android_extension := ".aac";
                   android_outputFormat := AAC_ADTS;
                   android_audioEncoder := AAC;
                   android_sampleRate := 44100;
                   android_numberOfChannels := 2;
                   android_bitRate := 128000 |};
     ios := {| ios_extension := ".m4a";
               ios_outputFormat := MPEG4AAC;
               ios_audioQuality := HIGH;
               ios_sampleRate := 44100;
               ios_numberOfChannels := 2;
               ios_bitRate := 128000 |};
     web := {| web_mimeType := "audio/webm";
               web_bitsPerSecond := 128000 |};
     isMeteringEnabled := true |}.




(** [Audio.setAudioModeAsync({...})] *)
Record AudioMode : Type := mkAudioMode {
  allowsRecordingIOS : bool;
  playsInSilentModeIOS : bool;
  staysActiveInBackground : bool;
  shouldDuckAndroid : bool;
  playThroughEarpieceAndroid : bool
}.

Definition monitoringAudioMode : AudioMode :=
  {| allowsRecordingIOS := true;
     playsInSilentModeIOS := true;
     staysActiveInBackground := false;
     shouldDuckAndroid := true;
     playThroughEarpieceAndroid := false |}.

(** *** The world of the component *)

Definition TimerId : Type := nat.
Definition RecordingId : Type := nat.

(** The calls into the native audio module; each may reject. *)
Inductive NativeCall : Type :=
| RequestPermissions | SetAudioMode | PrepareToRecord | StartRecording
| GetStatus | StopAndUnload.

Definition NativeCall_eqb (a b : NativeCall) : bool :=
  match a, b with
  | RequestPermissions, RequestPermissions
  | SetAudioMode, SetAudioMode
  | PrepareToRecord, PrepareToRecord
  | StartRecording, StartRecording
  | GetStatus, GetStatus
  | StopAndUnload, StopAndUnload => true
  | _, _ => false
  end.

Inductive RecorderState : Type := Created | Prepared | Running | Unloaded.

(** An [Audio.Recording] object. *)
Record Recorder : Type := mkRecorder {
  prepared_with : option RecordingOptions;
  recorder_state : RecorderState
}.

(** One step of an animation started on a dot. *)
Inductive Step : Type :=
| Delay (ms : Q)
| Timing (toValue : Q) (duration : Z).

Definition Animation : Type := list Step.

(** The scale at which a dot rests when its animation has run. *)
Definition settles_at (a : Animation) : Q :=
  fold_left (fun v s => match s with Timing x _ => x | Delay _ => v end) a 1.

(** What the closures of one render have captured: the props and the
    render's constant [recording]. *)
Record Closure : Type := mkClosure {
  isActive : bool;
  has_onAudioLevel : bool;
  captured_recording : option RecordingId
}.

(** - [permission_granted], [rejecting], [metering]: the device: whether
      the user grants the microphone, which native calls reject, the level
      the recorder reports;
    - [audioMode], [recorders]: the native audio module; a recording
      object is named by its position in [recorders];
    - [recording]: the state variable; [intervalRef]: the ref;
    - [timers]: the registered intervals, each with what its callback has
      captured: the environment of [startMonitoring] and [newRecording];
    - [dots]: the animation last started on each of the dots;
    - [reported]: the levels passed to [onAudioLevel], latest last. *)
Record World : Type := mkWorld {
  permission_granted : bool;
  rejecting : list NativeCall;
  metering : option Q;
  audioMode : option AudioMode;
  recorders : list Recorder;
  recording : option RecordingId;
  intervalRef : option TimerId;
  timers : list (TimerId * (Closure * RecordingId));
  dots : list Animation;
  reported : list Q;
  clock : Z
}.

Definition with_audioMode (m : AudioMode) (w : World) : World :=
  {| permission_granted := permission_granted w; rejecting := rejecting w;
     metering := metering w; audioMode := Some m; recorders := recorders w;
     recording := recording w; intervalRef := intervalRef w;
     timers := timers w; dots := dots w; reported := reported w;
     clock := clock w |}.

Definition with_recorders (f : list Recorder -> list Recorder) (w : World) : World :=
  {| permission_granted := permission_granted w; rejecting := rejecting w;
     metering := metering w; audioMode := audioMode w;
     recorders := f (recorders w);
     recording := recording w; intervalRef := intervalRef w;
     timers := timers w; dots := dots w; reported := reported w;
     clock := clock w |}.

Definition with_recording (r : option RecordingId) (w : World) : World :=
  {| permission_granted := permission_granted w; rejecting := rejecting w;
     metering := metering w; audioMode := audioMode w; recorders := recorders w;
     recording := r; intervalRef := intervalRef w;
     timers := timers w; dots := dots w; reported := reported w;
     clock := clock w |}.

Definition with_intervalRef (r : option TimerId) (w : World) : World :=
  {| permission_granted := permission_granted w; rejecting := rejecting w;
     metering := metering w; audioMode := audioMode w; recorders := recorders w;
     recording := recording w; intervalRef := r;
     timers := timers w; dots := dots w; reported := reported w;
     clock := clock w |}.

Definition with_timers
    (f : list (TimerId * (Closure * RecordingId)) ->
         list (TimerId * (Closure * RecordingId)))
    (w : World) : World :=
  {| permission_granted := permission_granted w; rejecting := rejecting w;
     metering := metering w; audioMode := audioMode w; recorders := recorders w;
     recording := recording w; intervalRef := intervalRef w;
     timers := f (timers w); dots := dots w; reported := reported w;
     clock := clock w |}.

Definition with_dots (f : list Animation -> list Animation) (w : World) : World :=
  {| permission_granted := permission_granted w; rejecting := rejecting w;
     metering := metering w; audioMode := audioMode w; recorders := recorders w;
     recording := recording w; intervalRef := intervalRef w;
     timers := timers w; dots := f (dots w); reported := reported w;
     clock := clock w |}.

Definition with_reported (level : Q) (w : World) : World :=
  {| permission_granted := permission_granted w; rejecting := rejecting w;
     metering := metering w; audioMode := audioMode w; recorders := recorders w;
     recording := recording w; intervalRef := intervalRef w;
     timers := timers w; dots := dots w; reported := reported w ++ [level];
     clock := clock w |}.

(** A native call rejects when the device says so. *)
Definition native (c : NativeCall) : M World unit :=
  fun w =>
    if existsb (NativeCall_eqb c) (rejecting w)
    then Threw "native audio module error" w
    else Returned tt w.

Definition set_recorder (r : RecordingId) (x : Recorder) (l : list Recorder)
    : list Recorder :=
  firstn r l ++ match skipn r l with
                | [] => []
                | _ :: rest => x :: rest
                end.

Definition recorder_at (r : RecordingId) (w : World) : Recorder :=
  nth r (recorders w) {| prepared_with := None; recorder_state := Unloaded |}.

(** [Audio.requestPermissionsAsync()]: is the status ['granted']? *)
Definition requestPermissionsAsync : M World bool :=
  native RequestPermissions ;;; gets permission_granted.

Definition setAudioModeAsync (m : AudioMode) : M World unit :=
  native SetAudioMode ;;; modify (with_audioMode m).

(** [new Audio.Recording()] *)
Definition newRecording : M World RecordingId :=
  fun w =>
    Returned (List.length (recorders w))
      (with_recorders
         (fun l => l ++ [{| prepared_with := None; recorder_state := Created |}]) w).

(** The module keeps one recorder at a time: [_recorderExists] is set by
    a successful [prepareToRecordAsync] and cleared when that recording is
    unloaded. *)
Definition holds_recorder (x : Recorder) : bool :=
  match recorder_state x with
  | Prepared | Running => true
  | Created | Unloaded => false
  end.

Definition recorderExists (w : World) : bool := existsb holds_recorder (recorders w).

(** [recording.prepareToRecordAsync(options)]: throws while another
    recording is prepared, before it reaches the native module. *)
Definition prepareToRecordAsync (r : RecordingId) (o : RecordingOptions) : M World unit :=
  exists_ <- gets recorderExists ;;
  if exists_
  then throw "Only one Recording object can be prepared at a given time."
  else
    native PrepareToRecord ;;;
    modify (with_recorders
              (set_recorder r {| prepared_with := Some o; recorder_state := Prepared |})).

Definition startAsync (r : RecordingId) : M World unit :=
  native StartRecording ;;;
  o <- gets (fun w => prepared_with (recorder_at r w)) ;;
  modify (with_recorders
            (set_recorder r {| prepared_with := o; recorder_state := Running |})).

(** [recording.stopAndUnloadAsync()]: rejects as well when the recording
    has been unloaded already. *)
Definition stopAndUnloadAsync (r : RecordingId) : M World unit :=
  native StopAndUnload ;;;
  x <- gets (recorder_at r) ;;
  match recorder_state x with
  | Unloaded => throw "Cannot unload a Recording that has already been unloaded."
  | _ =>
      modify (with_recorders
                (set_recorder r {| prepared_with := prepared_with x;
                                   recorder_state := Unloaded |}))
  end.

(** [getStatusAsync()]: [isRecording] and [metering]. *)
Definition getStatusAsync (r : RecordingId) : M World (bool * option Q) :=
  native GetStatus ;;;
  gets (fun w =>
    match recorder_state (recorder_at r w) with
    | Running => (true, metering w)
    | _ => (false, None)
    end).

Definition setInterval (env : Closure) (r : RecordingId) : M World TimerId :=
  fun w =>
    let t := S (list_max (map fst (timers w))) in
    Returned t (with_timers (fun ts => ts ++ [(t, (env, r))]) w).

Definition clearInterval (t : TimerId) : M World unit :=
  modify (with_timers (filter (fun p => negb (Nat.eqb (fst p) t)))).

(** *** The component's functions *)

Definition render (active callback : bool) (w : World) : Closure :=
  {| isActive := active; has_onAudioLevel := callback;
     captured_recording := recording w |}.

(** [dotAnimations.forEach((anim, index) => body)] *)
Definition for_each_dot (body : nat -> Animation) : M World unit :=
  modify (with_dots (fun ds => map body (seq 0 (List.length ds)))).

Definition RESET : Animation := [Timing 1 300].

Definition stopMonitoring (env : Closure) : M World unit :=
  current <- gets intervalRef ;;
  match current with
  | Some t => clearInterval t ;;; modify (with_intervalRef None)
  | None => ret tt
  end ;;;
  match captured_recording env with
  | Some r =>
      try_catch
        (stopAndUnloadAsync r ;;; modify (with_recording None))
        (fun error => ret tt)
  | None => ret tt
  end ;;;
  for_each_dot (fun _ => RESET).

Definition Qgt_bool (x y : Q) : bool := negb (Qle_bool x y).

(** [level > SPEECH_THRESHOLD] *)
Definition isSpeaking (level : Q) : bool := Qgt_bool level SPEECH_THRESHOLD.

(** [Math.max(0, Math.min(1, (level + 160) / 160))] *)
Definition normalizedLevel (level : Q) : Q :=
  Qmax 0 (Qmin 1 ((level + 160) / 160)).

Definition centerIndex : nat := NUM_DOTS / 2.

Definition distance (index : nat) : Q :=
  inject_Z (Z.abs (Z.of_nat index - Z.of_nat centerIndex)).

(** The wave started on dot [index] while speech is detected. *)
Definition wave (level : Q) (index : nat) : Animation :=
  let delay := distance index * 30 in
  let amplitude := normalizedLevel level * (1 - distance index * (1 # 10)) in
  [Delay delay; Timing (1 + amplitude * 2) 100; Timing 1 200].

Section WithSine.

(** [sine now index] stands for
    [Math.sin((now / 1000 + index * 0.2) % (Math.PI * 2))]. *)
Variable sine : Z -> nat -> Q.

(** The idle animation of dot [index]. *)
Definition idle (now : Z) (index : nat) : Animation :=
  let scale := 1 + sine now index * (1 # 10) in
  [Timing scale 100].

Definition animateDots (level : Q) : M World unit :=
  if isSpeaking level then for_each_dot (wave level)
  else
    now <- gets clock ;;
    for_each_dot (idle now).

(** The callback of the 100 ms interval. *)
Definition interval_callback (env : Closure) (r : RecordingId) : M World unit :=
  try_catch
    (status <- getStatusAsync r ;;
     match status with
     | (true, Some level) =>
         (if has_onAudioLevel env then modify (with_reported level) else ret tt) ;;;
         animateDots level
     | _ => ret tt
     end)
    (fun error => ret tt).

Definition startMonitoring (env : Closure) : M World unit :=
  try_catch
    (granted <- requestPermissionsAsync ;;
     if negb granted then ret tt
     else
       setAudioModeAsync monitoringAudioMode ;;;
       r <- newRecording ;;
       prepareToRecordAsync r recordingOptions ;;;
       startAsync r ;;;
       modify (with_recording (Some r)) ;;;
       t <- setInterval env r ;;
       modify (with_intervalRef (Some t)))
    (fun error => ret tt).

Definition fire (t : TimerId) : M World unit :=
  registered <- gets (fun w => find (fun p => Nat.eqb (fst p) t) (timers w)) ;;
  match registered with
  | Some (_, (env, r)) => interval_callback env r
  | None => ret tt
  end.

(** The effect of [useEffect(.., [isActive])] and its cleanup, for the
    render with environment [env]. *)
Definition effect (env : Closure) : M World unit :=
  if isActive env then startMonitoring env else stopMonitoring env.

Definition cleanup (env : Closure) : M World unit := stopMonitoring env.

End WithSine.

(** Capture is stopped: no interval is referenced and the closure holds no
    recording. *)
Definition stopped (env : Closure) (w : World) : Prop :=
  intervalRef w = None /\ captured_recording env = None.

End AudioVisualizer.

(** ** Concrete stores used as examples *)

Module Scenario.

Local Open Scope string_scope.
Local Open Scope Q_scope.

Definition user_with (c : Q) : Ledger.User :=
  {| Ledger.user_id := 1%nat; Ledger.clerkId := "user_a";
     Ledger.credits := c; Ledger.lastActive := 0%Z |}.

Definition session_en_sv (id : Ledger.Id) (active : bool) : Ledger.UsageSession :=
  {| Ledger.session_id := id; Ledger.userId := 1%nat; Ledger.creditsUsed := 0;
     Ledger.languageFrom := "en"; Ledger.languageTo := "sv";
     Ledger.startedAt := 500%Z;
     Ledger.endedAt := if active then None else Some 900%Z;
     Ledger.isActive := active |}.

(** One user, no session yet. *)
Definition db_new (c : Q) : Ledger.Db :=
  {| Ledger.users := [user_with c]; Ledger.usageSessions := [] |}.

(** One user with the sessions given. *)
Definition db_with (c : Q) (l : list Ledger.UsageSession) : Ledger.Db :=
  {| Ledger.users := [user_with c]; Ledger.usageSessions := l |}.

Definition args_en_sv : Ledger.StartArgs :=
  {| Ledger.arg_clerkId := "user_a";
     Ledger.arg_languageFrom := "en"; Ledger.arg_languageTo := "sv" |}.

Definition args_unknown : Ledger.StartArgs :=
  {| Ledger.arg_clerkId := "nobody";
     Ledger.arg_languageFrom := "en"; Ledger.arg_languageTo := "sv" |}.

(** A freshly mounted hook over a ledger. *)
Definition mounted (db : Ledger.Db) : Hook.World :=
  {| Hook.react := {| Hook.sessionId := None; Hook.isTracking := false;
                      Hook.sessionCreditsUsed := 0;
                      Hook.sessionSecondsUsed := 0 |};
     Hook.intervalRef := None; Hook.startTimeRef := None;
     Hook.timers := []; Hook.ledger := db; Hook.calls := [];
     Hook.clock := 1000%Z |}.

Definition clerk : option string := Some "user_a".

(** The user presses start: [startTracking] of the current render runs. *)
Definition press_start (w : Hook.World) : Hook.World :=
  state_of (PerMinute.startTracking (Hook.render clerk w) "en" "sv" w).

(** A minute later the interval fires. *)
Definition minute_later (t : Hook.TimerId) (w : Hook.World) : Hook.World :=
  state_of (PerMinute.fire PerMinute.heartbeat t
              (state_of (Hook.elapse 60000 w))).

(** The user presses stop: [stopTracking] of the current render runs. *)
Definition press_stop (w : Hook.World) : Hook.World :=
  state_of (PerMinute.stopTracking (Hook.render clerk w) w).

(** The same user starts a session on a second device. *)
Definition second_device (w : Hook.World) : Hook.World :=
  state_of (Hook.elsewhere (Ledger.startSession args_en_sv) w).

(** A device that grants the microphone, on which no native call
    rejects and the recorder reports -30 dB; the component is mounted and
    nothing has run yet. *)
Definition device : AudioVisualizer.World :=
  {| AudioVisualizer.permission_granted := true;
     AudioVisualizer.rejecting := [];
     AudioVisualizer.metering := Some (-30);
     AudioVisualizer.audioMode := None;
     AudioVisualizer.recorders := [];
     AudioVisualizer.recording := None;
     AudioVisualizer.intervalRef := None;
     AudioVisualizer.timers := [];
     AudioVisualizer.dots := repeat [] AudioVisualizer.NUM_DOTS;
     AudioVisualizer.reported := [];
     AudioVisualizer.clock := 0%Z |}.

(** [isActive] becomes true: the effect starts monitoring. *)
Definition monitoring : AudioVisualizer.World :=
  state_of (AudioVisualizer.effect
              (AudioVisualizer.render true true device) device).

(** [isActive] becomes false: the effect of the new render stops
    monitoring. *)
Definition stopped_once : AudioVisualizer.World :=
  state_of (AudioVisualizer.effect
              (AudioVisualizer.render false true monitoring) monitoring).

End Scenario.

(** * Properties of the ledger *)

Section LedgerFacts.

Import Ledger.
Local Open Scope Q_scope.

Lemma patch_ended_id now s : session_id (patch_ended now s) = session_id s.
Proof. reflexivity. Qed.

Lemma patch_ended_twice now s : patch_ended now (patch_ended now s) = patch_ended now s.
Proof. reflexivity. Qed.

Lemma patch_ended_inactive uid now s : is_active_of uid (patch_ended now s) = false.
Proof. unfold is_active_of; simpl. apply andb_false_r. Qed.

Lemma no_match_query c db :
  (forall u, In u (users db) -> clerkId u <> c) -> users_by_clerk_id c db = [].
Proof.
  unfold users_by_clerk_id. intros H.
  induction (users db) as [|u l IH]; simpl; [reflexivity|].
  destruct (String.eqb_spec (clerkId u) c) as [E|E].
  - exfalso. apply (H u); [left; reflexivity | exact E].
  - apply IH. intros v Hv. apply H. right; exact Hv.
Qed.

Lemma query_nil_no_match c db :
  users_by_clerk_id c db = [] -> forall u, In u (users db) -> clerkId u <> c.
Proof.
  unfold users_by_clerk_id. intros H u Hu E.
  assert (Hin : In u (filter (fun u => String.eqb (clerkId u) c) (users db))).
  { apply filter_In. split; [exact Hu|]. apply String.eqb_eq; exact E. }
  rewrite H in Hin. exact Hin.
Qed.

(** C10: [startSession] throws before any write: 'User not found' when no
    user carries the clerk id, 'Insufficient credits' when the matched
    user's balance is at most 0; in both cases the database is the one
    before the call, so no session was created and none was changed. *)
Theorem startSession_preconditions (args : StartArgs) (now : Z) (db : Db) :
  ((forall u, In u (users db) -> clerkId u <> arg_clerkId args) ->
     startSession args now db = Threw "User not found" db)
  /\
  (forall user,
     hd_error (users_by_clerk_id (arg_clerkId args) db) = Some user ->
     credits user <= 0 ->
     startSession args now db = Threw "Insufficient credits" db).
Proof.
  split.
  - intros H. unfold startSession, bind, first, gets.
    rewrite (no_match_query _ _ H). reflexivity.
  - intros user Hu Hc. unfold startSession, bind, first, gets.
    rewrite Hu. apply Qle_bool_iff in Hc. rewrite Hc. reflexivity.
Qed.

Lemma startSession_preconditions_witness :
  startSession Scenario.args_unknown 7 (Scenario.db_new 5)
    = Threw "User not found" (Scenario.db_new 5)
  /\ startSession Scenario.args_en_sv 7 (Scenario.db_new 0)
    = Threw "Insufficient credits" (Scenario.db_new 0).
Proof.
  split.
  - apply (proj1 (startSession_preconditions Scenario.args_unknown 7 (Scenario.db_new 5))).
    simpl. intros u [E|[]]. subst u. simpl. discriminate.
  - apply (proj2 (startSession_preconditions Scenario.args_en_sv 7 (Scenario.db_new 0))
             (Scenario.user_with 0)).
    + reflexivity.
    + simpl. apply Qle_refl.
Defined.

(** C9: [endSession] on a session that has ended writes nothing, leaves
    the database as it was and returns without the final details; it
    throws only when [get] finds no session for the id, and then the
    message is 'Session not found'. *)
Theorem endSession_already_ended (sessionId : Id) (now : Z) (db : Db) :
  (forall session,
     session_of sessionId db = Some session ->
     isActive session = false ->
     endSession sessionId now db = Returned None db)
  /\
  (forall msg db',
     endSession sessionId now db = Threw msg db' ->
     msg = "Session not found"%string /\ db' = db /\ session_of sessionId db = None)
  /\
  (session_of sessionId db = None ->
     endSession sessionId now db = Threw "Session not found" db).
Proof.
  unfold endSession, bind, get_session, gets.
  repeat split.
  - intros session Hs Ha. rewrite Hs, Ha. reflexivity.
  - destruct (session_of sessionId db) as [session|] eqn:Hs.
    + destruct (isActive session); simpl in H; discriminate.
    + unfold throw in H. congruence.
  - destruct (session_of sessionId db) as [session|] eqn:Hs.
    + destruct (isActive session); simpl in H; discriminate.
    + unfold throw in H. congruence.
  - destruct (session_of sessionId db) as [session|] eqn:Hs.
    + destruct (isActive session); simpl in H; discriminate.
    + reflexivity.
  - intros Hs. rewrite Hs. reflexivity.
Qed.

Lemma endSession_already_ended_witness :
  endSession 4%nat 2000 (Scenario.db_with 5 [Scenario.session_en_sv 4%nat false])
    = Returned None (Scenario.db_with 5 [Scenario.session_en_sv 4%nat false])
  /\ endSession 9%nat 2000 (Scenario.db_with 5 [Scenario.session_en_sv 4%nat false])
    = Threw "Session not found" (Scenario.db_with 5 [Scenario.session_en_sv 4%nat false]).
Proof.
  split.
  - apply (proj1 (endSession_already_ended 4%nat 2000
                    (Scenario.db_with 5 [Scenario.session_en_sv 4%nat false]))
             (Scenario.session_en_sv 4%nat false)); reflexivity.
  - apply (proj2 (proj2 (endSession_already_ended 9%nat 2000
                    (Scenario.db_with 5 [Scenario.session_en_sv 4%nat false])))).
    reflexivity.
Defined.

Lemma hd_error_filter {A} (f : A -> bool) (l : list A) (x : A) :
  hd_error (filter f l) = Some x -> In x l /\ f x = true.
Proof.
  intros H. apply filter_In.
  destruct (filter f l) as [|y r]; simpl in H; [discriminate|].
  injection H as ->. left; reflexivity.
Qed.

Lemma filter_none {A} (f : A -> bool) (l : list A) :
  (forall x, In x l -> f x = false) -> filter f l = [].
Proof.
  induction l as [|a l IH]; simpl; intros H; [reflexivity|].
  rewrite (H a (or_introl eq_refl)). apply IH. intros x Hx. apply H. right; exact Hx.
Qed.

Lemma patch_in_In {A} (key : A -> Id) (f : A -> A) (tbl : list A) (d : A) :
  In d tbl -> In (f d) (patch_in key (key d) f tbl).
Proof.
  intros H. unfold patch_in.
  apply in_map_iff. exists d. rewrite Nat.eqb_refl. split; [reflexivity | exact H].
Qed.

(** The loop of [startSession] patches exactly the documents whose id it
    has collected. *)
Lemma for_each_patch_ended (now : Z) (l : list UsageSession) :
  forall db,
    for_each l (fun session => patch_session (session_id session) (patch_ended now)) db
    = Returned tt {| users := users db;
                     usageSessions :=
                       map (ended_if (map session_id l) now) (usageSessions db) |}.
Proof.
  induction l as [|a l IH]; intros db.
  - destruct db as [us tbl]. simpl. unfold ret, ended_if. simpl.
    rewrite map_id. reflexivity.
  - simpl. unfold bind. unfold patch_session at 1. unfold modify.
    rewrite IH. simpl. f_equal. f_equal.
    unfold patch_in. rewrite map_map. apply map_ext. intros d.
    unfold ended_if. simpl.
    destruct (Nat.eqb (session_id d) (session_id a)) eqn:E; simpl.
    + destruct (existsb _ _); reflexivity.
    + reflexivity.
Qed.

Lemma ended_if_inactive (uid : Id) (now : Z) (db : Db) (d : UsageSession) :
  In d (usageSessions db) ->
  is_active_of uid
    (ended_if (map session_id (sessions_by_active uid db)) now d) = false.
Proof.
  intros Hd. unfold ended_if.
  destruct (existsb _ _) eqn:E.
  - apply patch_ended_inactive.
  - destruct (is_active_of uid d) eqn:Ha; [|reflexivity].
    assert (Hin : In d (sessions_by_active uid db)).
    { apply filter_In. split; assumption. }
    assert (Hex : existsb (Nat.eqb (session_id d))
                    (map session_id (sessions_by_active uid db)) = true).
    { apply existsb_exists. exists (session_id d). split.
      - apply in_map. exact Hin.
      - apply Nat.eqb_refl. }
    congruence.
Qed.

Lemma ended_if_fewer_active (uid : Id) (ids : list Id) (now : Z) (tbl : list UsageSession) :
  (List.length (filter (is_active_of uid) (map (ended_if ids now) tbl))
   <= List.length (filter (is_active_of uid) tbl))%nat.
Proof.
  induction tbl as [|d tbl IH]; simpl; [lia|].
  unfold ended_if at 1.
  destruct (existsb (Nat.eqb (session_id d)) ids).
  - rewrite patch_ended_inactive. destruct (is_active_of uid d); simpl; lia.
  - destruct (is_active_of uid d); simpl; lia.
Qed.

(** What a successful [startSession] has done. *)
Lemma startSession_returned (args : StartArgs) (now : Z) (db : Db) (sid : Id) (db' : Db) :
  startSession args now db = Returned sid db' ->
  exists user,
    hd_error (users_by_clerk_id (arg_clerkId args) db) = Some user
    /\ Qle_bool (credits user) 0 = false
    /\ usageSessions db'
       = map (ended_if (map session_id (sessions_by_active (user_id user) db)) now)
             (usageSessions db)
         ++ [ {| session_id := sid;
                 userId := user_id user;
                 creditsUsed := 0;
                 languageFrom := arg_languageFrom args;
                 languageTo := arg_languageTo args;
                 startedAt := now;
                 endedAt := None;
                 isActive := true |} ]
    /\ users db' = users db.
Proof.
  unfold startSession, bind, first, collect, gets.
  destruct (hd_error (users_by_clerk_id (arg_clerkId args) db)) as [user|]; [|discriminate].
  destruct (Qle_bool (credits user) 0) eqn:Hc; [discriminate|].
  rewrite for_each_patch_ended. unfold insert_session, ret. simpl.
  intros H. injection H as <- <-. exists user. simpl. auto.
Qed.

(** C2: after a successful [startSession] the caller's user has exactly
    one active session, the new one; every session of that user that was
    active before is in the table as patched (inactive, with [endedAt]);
    and if no user had more than one active session before, none has
    afterwards. *)
Theorem startSession_one_active (args : StartArgs) (now : Z) (db : Db) (sid : Id) (db' : Db) :
  startSession args now db = Returned sid db' ->
  exists user new,
    hd_error (users_by_clerk_id (arg_clerkId args) db) = Some user
    /\ sessions_by_active (user_id user) db' = [new]
    /\ session_id new = sid /\ isActive new = true /\ endedAt new = None
    /\ (forall s, In s (sessions_by_active (user_id user) db) ->
          In (patch_ended now s) (usageSessions db')
          /\ isActive (patch_ended now s) = false
          /\ endedAt (patch_ended now s) = Some now)
    /\ ((forall uid, (List.length (sessions_by_active uid db) <= 1)%nat) ->
        forall uid, (List.length (sessions_by_active uid db') <= 1)%nat).
Proof.
  intros H. destruct (startSession_returned _ _ _ _ _ H) as (user & Hu & Hc & Ht & _).
  exists user. eexists. split; [exact Hu|].
  assert (Hnone : filter (is_active_of (user_id user))
            (map (ended_if (map session_id (sessions_by_active (user_id user) db)) now)
                 (usageSessions db)) = []).
  { apply filter_none. intros x Hx. apply in_map_iff in Hx.
    destruct Hx as (d & <- & Hd). apply ended_if_inactive. exact Hd. }
  split.
  { unfold sessions_by_active at 1. rewrite Ht, filter_app, Hnone. simpl.
    unfold is_active_of. simpl. rewrite Nat.eqb_refl. simpl. reflexivity. }
  do 3 (split; [reflexivity|]).
  split.
  - intros s Hs. split; [|split; reflexivity].
    rewrite Ht. apply in_or_app. left.
    apply in_map_iff. exists s. split.
    + unfold ended_if.
      replace (existsb (Nat.eqb (session_id s))
                 (map session_id (sessions_by_active (user_id user) db))) with true;
        [reflexivity|].
      symmetry. apply existsb_exists. exists (session_id s). split.
      * apply in_map. exact Hs.
      * apply Nat.eqb_refl.
    + apply filter_In in Hs. apply Hs.
  - intros Hinv uid. unfold sessions_by_active. rewrite Ht, filter_app, length_app.
    destruct (Nat.eq_dec uid (user_id user)) as [->|Hne].
    + rewrite Hnone. simpl. destruct (is_active_of _ _); simpl; lia.
    + simpl. unfold is_active_of at 2. simpl.
      replace (Nat.eqb (user_id user) uid) with false
        by (symmetry; apply Nat.eqb_neq; congruence).
      simpl. rewrite Nat.add_0_r.
      eapply Nat.le_trans; [apply ended_if_fewer_active|]. apply Hinv.
Qed.

Lemma startSession_one_active_witness :
  exists user new,
    hd_error (users_by_clerk_id "user_a"
                (Scenario.db_with 5 [Scenario.session_en_sv 4%nat true])) = Some user
    /\ sessions_by_active (user_id user)
         (state_of (startSession Scenario.args_en_sv 2000
                      (Scenario.db_with 5 [Scenario.session_en_sv 4%nat true]))) = [new]
    /\ session_id new = 5%nat /\ isActive new = true /\ endedAt new = None
    /\ (forall s, In s (sessions_by_active (user_id user)
                          (Scenario.db_with 5 [Scenario.session_en_sv 4%nat true])) ->
          In (patch_ended 2000 s)
             (usageSessions
                (state_of (startSession Scenario.args_en_sv 2000
                             (Scenario.db_with 5 [Scenario.session_en_sv 4%nat true]))))
          /\ isActive (patch_ended 2000 s) = false
          /\ endedAt (patch_ended 2000 s) = Some 2000%Z)
    /\ ((forall uid, (List.length (sessions_by_active uid
                        (Scenario.db_with 5 [Scenario.session_en_sv 4%nat true])) <= 1)%nat) ->
        forall uid, (List.length (sessions_by_active uid
                        (state_of (startSession Scenario.args_en_sv 2000
                           (Scenario.db_with 5 [Scenario.session_en_sv 4%nat true])))) <= 1)%nat).
Proof.
  apply (startSession_one_active Scenario.args_en_sv 2000
           (Scenario.db_with 5 [Scenario.session_en_sv 4%nat true]) 5%nat).
  reflexivity.
Defined.

(** The handler of [incrementSessionCredits] on its own, before the
    runtime decides what becomes of its writes: when the user and an
    active session exist and the balance is at most 0, it patches the
    active session (inactive, [endedAt] set) and then throws 'Insufficient
    credits - session ended'. *)
Lemma incrementSessionCredits_handler_no_credits
    (clerk : string) (now : Z) (db : Db) (user : User) (activeSession : UsageSession) :
  hd_error (users_by_clerk_id clerk db) = Some user ->
  hd_error (sessions_by_active (user_id user) db) = Some activeSession ->
  credits user <= 0 ->
  exists db',
    incrementSessionCredits clerk now db
      = Threw "Insufficient credits - session ended" db'
    /\ users db' = users db
    /\ usageSessions db'
       = patch_in session_id (session_id activeSession) (patch_ended now)
           (usageSessions db)
    /\ In (patch_ended now activeSession) (usageSessions db')
    /\ isActive (patch_ended now activeSession) = false
    /\ endedAt (patch_ended now activeSession) = Some now.
Proof.
  intros Hu Hs Hc. apply Qle_bool_iff in Hc.
  unfold incrementSessionCredits, bind, first, gets.
  rewrite Hu, Hs, Hc. unfold patch_session, modify, throw.
  eexists. split; [reflexivity|]. simpl.
  split; [reflexivity|]. split; [reflexivity|].
  split.
  { apply patch_in_In. apply hd_error_filter in Hs. apply Hs. }
  split; reflexivity.
Qed.

(** A mutation that throws leaves the database as it found it. *)
Lemma mutation_threw {A} (handler : M Db A) (db db' : Db) (msg : string) :
  handler db = Threw msg db' -> mutation handler db = Threw msg db.
Proof.
  intros H. unfold mutation. rewrite H. reflexivity.
Qed.

(** The hook calls the ledger through the runtime: what a call leaves in
    the ledger is what the mutation, run as a transaction, leaves. *)
Lemma call_runs_mutation {A} (c : Hook.LedgerCall) (handler : Z -> M Db A)
    (w : Hook.World) :
  Hook.ledger (state_of (Hook.call c handler w))
  = state_of (mutation (handler (Hook.clock w)) (Hook.ledger w)).
Proof.
  unfold Hook.call, mutation.
  destruct (handler (Hook.clock w) (Hook.ledger w)); reflexivity.
Qed.

(** C8 (the code at the failing input): user 'user_a' has no credit left
    and session 4 is active.  The handler of [incrementSessionCredits]
    patches the session and throws 'Insufficient credits - session
    ended'; the mutation, run as the transaction it is, throws the same
    error and leaves the database as it was: session 4 is still the
    user's active session, with no [endedAt].  So it is for the hook that
    sends the heartbeat, and for every database in which the balance is
    at most 0: the session is never marked inactive. *)
Theorem no_credits_session_stays_active :
  (exists db',
      incrementSessionCredits "user_a" 2000
        (Scenario.db_with 0 [Scenario.session_en_sv 4%nat true])
      = Threw "Insufficient credits - session ended" db'
      /\ getActiveSession "user_a" db' = None)
  /\ mutation (incrementSessionCredits "user_a" 2000)
       (Scenario.db_with 0 [Scenario.session_en_sv 4%nat true])
     = Threw "Insufficient credits - session ended"
         (Scenario.db_with 0 [Scenario.session_en_sv 4%nat true])
  /\ (exists session,
        getActiveSession "user_a"
          (state_of (mutation (incrementSessionCredits "user_a" 2000)
                       (Scenario.db_with 0 [Scenario.session_en_sv 4%nat true])))
        = Some session
        /\ session_id session = 4%nat
        /\ isActive session = true
        /\ endedAt session = None)
  /\ Hook.ledger
       (state_of (Hook.call (Hook.CallIncrementSessionCredits "user_a")
                    (incrementSessionCredits "user_a")
                    (Scenario.mounted
                       (Scenario.db_with 0 [Scenario.session_en_sv 4%nat true]))))
     = Scenario.db_with 0 [Scenario.session_en_sv 4%nat true]
  /\ (forall clerk now db user activeSession,
        hd_error (users_by_clerk_id clerk db) = Some user ->
        hd_error (sessions_by_active (user_id user) db) = Some activeSession ->
        credits user <= 0 ->
        mutation (incrementSessionCredits clerk now) db
        = Threw "Insufficient credits - session ended" db
        /\ In activeSession (usageSessions db)
        /\ isActive activeSession = true).
Proof.
  split.
  { eexists. split; reflexivity. }
  split; [reflexivity|].
  split.
  { exists (Scenario.session_en_sv 4%nat true). repeat split. }
  split; [reflexivity|].
  intros clerk now db user activeSession Hu Hs Hc.
  destruct (incrementSessionCredits_handler_no_credits clerk now db user activeSession
              Hu Hs Hc) as (db' & Hthrew & _).
  split; [exact (mutation_threw _ _ _ _ Hthrew)|].
  apply hd_error_filter in Hs. destruct Hs as [Hin Hact].
  split; [exact Hin|].
  unfold is_active_of in Hact. apply andb_prop in Hact.
  destruct Hact as [_ Hact]. destruct (isActive activeSession); [reflexivity|discriminate].
Qed.

(** With credits left, the heartbeat of [convex/usageSessions.ts] takes
    one credit from the user found by clerk id, adds one to the first
    active session of that user, and answers with the balance it has
    written. *)
Lemma incrementSessionCredits_charges
    (clerk : string) (now : Z) (db : Db) (user : User) (activeSession : UsageSession) :
  hd_error (users_by_clerk_id clerk db) = Some user ->
  hd_error (sessions_by_active (user_id user) db) = Some activeSession ->
  0 < credits user ->
  incrementSessionCredits clerk now db
  = Returned {| creditsRemaining := credits user - 1;
                sessionCreditsUsed := creditsUsed activeSession + 1 |}
      {| users := patch_in user_id (user_id user)
                    (patch_credits (credits user - 1) now) (users db);
         usageSessions := patch_in session_id (session_id activeSession)
                            (patch_creditsUsed (creditsUsed activeSession + 1))
                            (usageSessions db) |}.
Proof.
  intros Hu Hs Hc.
  assert (Hb : Qle_bool (credits user) 0 = false).
  { destruct (Qle_bool (credits user) 0) eqn:E; [|reflexivity].
    apply Qle_bool_iff in E. exfalso. apply (Qlt_irrefl 0).
    eapply Qlt_le_trans; eassumption. }
  unfold incrementSessionCredits, bind, first, gets.
  rewrite Hu, Hs, Hb. reflexivity.
Qed.


End LedgerFacts.

(** * Properties of the usage-tracking hook *)

Section HookFacts.

Import Hook.
Local Open Scope Q_scope.

Lemma existsb_filter_other (t : TimerId) (ts : list (TimerId * Closure)) :
  existsb (fun p => Nat.eqb (fst p) t)
    (filter (fun p => negb (Nat.eqb (fst p) t)) ts) = false.
Proof.
  induction ts as [|[a c] ts IH]; simpl; [reflexivity|].
  destruct (Nat.eqb a t) eqn:E; simpl; [exact IH|].
  rewrite E. exact IH.
Qed.

(** [stopTracking] of the per-minute hook returns, whatever the ledger
    answers; afterwards the ref is empty, the interval it referenced is
    no longer registered, and the state variables are reset.  It sends
    [endSession] for the session id its closure captured, if any. *)
Lemma PerMinute_stopTracking_spec (env : Closure) (w : World) :
  exists w',
    PerMinute.stopTracking env w = Returned tt w'
    /\ intervalRef w' = None
    /\ (forall t, intervalRef w = Some t -> timer_live t w' = false)
    /\ react w' = {| sessionId := None; isTracking := false;
                     sessionCreditsUsed := 0;
                     sessionSecondsUsed := sessionSecondsUsed (react w) |}
    /\ calls w' = calls w ++ match captured_sessionId env with
                             | Some sid => [CallEndSession sid]
                             | None => []
                             end.
Proof.
  unfold PerMinute.stopTracking, bind, gets, try_catch, call, ret,
    clearInterval, setIsTracking, setSessionId, setSessionCreditsUsed, modify.
  destruct (intervalRef w) as [t|] eqn:Hi;
    destruct (captured_sessionId env) as [sid|]; simpl;
    try (destruct (Ledger.endSession sid (clock w) (ledger w)); simpl);
    eexists; (split; [reflexivity|]); simpl;
    (split; [first [reflexivity | exact Hi]|]);
    (split; [intros t' Ht'; try discriminate; injection Ht' as <-;
             unfold timer_live; simpl; apply existsb_filter_other|]);
    (split; [reflexivity|]); try reflexivity;
    rewrite app_nil_r; reflexivity.
Qed.

Lemma PerSecond_stopTracking_spec (env : Closure) (w : World) :
  exists w',
    PerSecond.stopTracking env w = Returned tt w'
    /\ intervalRef w' = None
    /\ (forall t, intervalRef w = Some t -> timer_live t w' = false)
    /\ react w' = {| sessionId := None; isTracking := false;
                     sessionCreditsUsed := 0; sessionSecondsUsed := 0 |}
    /\ calls w' = calls w ++ match captured_sessionId env with
                             | Some sid => [CallEndSession sid]
                             | None => []
                             end.
Proof.
  unfold PerSecond.stopTracking, bind, gets, try_catch, call, ret,
    clearInterval, setIsTracking, setSessionId, setSessionCreditsUsed,
    setSessionSecondsUsed, modify.
  destruct (intervalRef w) as [t|] eqn:Hi;
    destruct (captured_sessionId env) as [sid|]; simpl;
    try (destruct (Ledger.endSession sid (clock w) (ledger w)); simpl);
    eexists; (split; [reflexivity|]); simpl;
    (split; [first [reflexivity | exact Hi]|]);
    (split; [intros t' Ht'; try discriminate; injection Ht' as <-;
             unfold timer_live; simpl; apply existsb_filter_other|]);
    (split; [reflexivity|]); try reflexivity;
    rewrite app_nil_r; reflexivity.
Qed.

(** The 3-second hook stops on every answer whose [creditsRemaining] is
    at most 0 (indeed at most 0.05): in the same callback the interval is
    cleared and the tracking state reset. *)
Lemma PerSecond_quota_trigger (env : Closure) (result : PerSecond.FractionalResult)
    (w : World) :
  PerSecond.creditsRemaining result <= 0 ->
  exists w',
    PerSecond.on_result env result w = Returned tt w'
    /\ intervalRef w' = None
    /\ (forall t, intervalRef w = Some t -> timer_live t w' = false)
    /\ isTracking (react w') = false
    /\ sessionId (react w') = None.
Proof.
  intros H.
  assert (Hb : Qle_bool (PerSecond.creditsRemaining result) PerSecond.MINIMUM_CHARGE = true).
  { apply Qle_bool_iff. eapply Qle_trans; [exact H|].
    unfold PerSecond.MINIMUM_CHARGE. unfold Qle; simpl; lia. }
  unfold PerSecond.on_result, bind, setSessionCreditsUsed, setSessionSecondsUsed, modify.
  rewrite Hb.
  match goal with
  | |- context [PerSecond.stopTracking env ?x] =>
      destruct (PerSecond_stopTracking_spec env x) as (w' & E & Hi & Ht & Hr & _)
  end.
  exists w'. split; [exact E|]. split; [exact Hi|]. split; [exact Ht|].
  rewrite Hr. split; reflexivity.
Qed.

(** The per-minute hook stops on an answer whose [creditsRemaining] is 0,
    and on an error of the heartbeat. *)
Lemma PerMinute_zero_trigger (env : Closure) (result : Ledger.IncrementResult)
    (w : World) :
  Ledger.creditsRemaining result == 0 ->
  exists w',
    PerMinute.on_result env result w = Returned tt w'
    /\ intervalRef w' = None
    /\ (forall t, intervalRef w = Some t -> timer_live t w' = false)
    /\ isTracking (react w') = false
    /\ sessionId (react w') = None.
Proof.
  intros H. apply Qeq_bool_iff in H.
  unfold PerMinute.on_result, bind, setSessionCreditsUsed, modify.
  rewrite H.
  match goal with
  | |- context [PerMinute.stopTracking env ?x] =>
      destruct (PerMinute_stopTracking_spec env x) as (w' & E & Hi & Ht & Hr & _)
  end.
  exists w'. split; [exact E|]. split; [exact Hi|]. split; [exact Ht|].
  rewrite Hr. split; reflexivity.
Qed.


(** The heartbeat of the per-minute hook carries the clerk id, and
    nothing else; what follows it in the same callback is at most the
    [endSession] of [stopTracking]. *)
Lemma PerMinute_interval_callback_calls
    (hb : string -> Z -> M Ledger.Db Ledger.IncrementResult)
    (env : Closure) (clerk : string) (w : World) :
  exists w' rest,
    PerMinute.interval_callback hb env clerk w = Returned tt w'
    /\ calls w' = calls w ++ CallIncrementSessionCredits clerk :: rest
    /\ (rest = [] \/
        exists sid, captured_sessionId env = Some sid /\ rest = [CallEndSession sid]).
Proof.
  assert (Hrest : forall o : option Ledger.Id,
            o = captured_sessionId env ->
            let rest := match o with Some sid => [CallEndSession sid] | None => [] end in
            rest = [] \/
            exists sid, captured_sessionId env = Some sid /\ rest = [CallEndSession sid]).
  { intros [sid|] Ho; simpl; [right; exists sid; split; [symmetry; exact Ho | reflexivity]
                             | left; reflexivity]. }
  unfold PerMinute.interval_callback, try_catch, bind, call.
  destruct (hb clerk (clock w) (ledger w)) as [result db'|msg db'].
  - unfold PerMinute.on_result, bind, setSessionCreditsUsed, modify.
    destruct (Qeq_bool (Ledger.creditsRemaining result) 0).
    + match goal with
      | |- context [PerMinute.stopTracking env ?x] =>
          destruct (PerMinute_stopTracking_spec env x) as (w' & E & _ & _ & _ & Hc)
      end.
      rewrite E. exists w'. eexists. split; [reflexivity|]. split.
      * rewrite Hc. simpl. rewrite <- app_assoc. reflexivity.
      * apply Hrest; reflexivity.
    + eexists. exists []. split; [reflexivity|]. split; [reflexivity|left; reflexivity].
  - match goal with
    | |- context [PerMinute.stopTracking env ?x] =>
        destruct (PerMinute_stopTracking_spec env x) as (w' & E & _ & _ & _ & Hc)
    end.
    rewrite E. exists w'. eexists. split; [reflexivity|]. split.
    + rewrite Hc. simpl. rewrite <- app_assoc. reflexivity.
    + apply Hrest; reflexivity.
Qed.

(** The heartbeat of the 3-second hook carries the clerk id and the
    constant 3. *)
Lemma PerSecond_interval_callback_calls
    (hb : string -> Q -> Z -> M Ledger.Db PerSecond.FractionalResult)
    (env : Closure) (clerk : string) (w : World) :
  exists w' rest,
    PerSecond.interval_callback hb env clerk w = Returned tt w'
    /\ calls w' = calls w ++ CallUpdateFractionalCredits clerk 3 :: rest
    /\ (rest = [] \/
        exists sid, captured_sessionId env = Some sid /\ rest = [CallEndSession sid]).
Proof.
  assert (Hrest : forall o : option Ledger.Id,
            o = captured_sessionId env ->
            let rest := match o with Some sid => [CallEndSession sid] | None => [] end in
            rest = [] \/
            exists sid, captured_sessionId env = Some sid /\ rest = [CallEndSession sid]).
  { intros [sid|] Ho; simpl; [right; exists sid; split; [symmetry; exact Ho | reflexivity]
                             | left; reflexivity]. }
  unfold PerSecond.interval_callback, try_catch, bind, call, gets.
  destruct (hb clerk PerSecond.secondsToAdd (clock w) (ledger w)) as [result db'|msg db'].
  - unfold PerSecond.on_result, bind, setSessionCreditsUsed, setSessionSecondsUsed, modify.
    destruct (Qle_bool (PerSecond.creditsRemaining result) PerSecond.MINIMUM_CHARGE).
    + match goal with
      | |- context [PerSecond.stopTracking env ?x] =>
          destruct (PerSecond_stopTracking_spec env x) as (w' & E & _ & _ & _ & Hc)
      end.
      rewrite E. exists w'. eexists. split; [reflexivity|]. split.
      * rewrite Hc. simpl. rewrite <- app_assoc. reflexivity.
      * apply Hrest; reflexivity.
    + eexists. exists []. split; [reflexivity|]. split; [reflexivity|left; reflexivity].
  - match goal with
    | |- context [PerSecond.stopTracking env ?x] =>
        destruct (PerSecond_stopTracking_spec env x) as (w' & E & _ & _ & _ & Hc)
    end.
    rewrite E. exists w'. eexists. split; [reflexivity|]. split.
    + rewrite Hc. simpl. rewrite <- app_assoc. reflexivity.
    + apply Hrest; reflexivity.
Qed.

(** C1 (the code at the failing inputs), on the per-minute hook.
    - The user has half a credit and starts tracking.  The first
      heartbeat is answered with [creditsRemaining = -1/2]; the callback
      compares with [=== 0], so the interval stays registered and the hook
      keeps tracking.
    - The user has one credit and starts tracking.  The first heartbeat
      is answered with [creditsRemaining = 0]; the callback clears the
      interval and resets the state, and the session is still the user's
      active session in the ledger: no [endSession] was sent. *)
Theorem quota_trigger_failures :
  let w1 := Scenario.press_start (Scenario.mounted (Scenario.db_new (1 # 2))) in
  let w2 := Scenario.minute_later 1%nat w1 in
  let v1 := Scenario.press_start (Scenario.mounted (Scenario.db_new 1)) in
  let v2 := Scenario.minute_later 1%nat v1 in
  (sessionId (react w1) = Some 1%nat
   /\ intervalRef w1 = Some 1%nat
   /\ (exists result db',
         Ledger.incrementSessionCredits "user_a" 61000 (ledger w1) = Returned result db'
         /\ Ledger.creditsRemaining result = - (1 # 2)
         /\ Ledger.creditsRemaining result <= 0)
   /\ timer_live 1%nat w2 = true
   /\ intervalRef w2 = Some 1%nat
   /\ isTracking (react w2) = true
   /\ sessionId (react w2) = Some 1%nat)
  /\
  (sessionId (react v1) = Some 1%nat
   /\ (exists result db',
         Ledger.incrementSessionCredits "user_a" 61000 (ledger v1) = Returned result db'
         /\ Ledger.creditsRemaining result = 0)
   /\ timer_live 1%nat v2 = false
   /\ intervalRef v2 = None
   /\ isTracking (react v2) = false
   /\ endSession_calls 1%nat v2 = 0%nat
   /\ option_map Ledger.session_id (Ledger.getActiveSession "user_a" (ledger v2))
      = Some 1%nat).
Proof.
  cbv zeta. split.
  - split; [vm_compute; reflexivity|]. split; [vm_compute; reflexivity|]. split.
    + eexists. eexists. split; [vm_compute; reflexivity|].
      split; [reflexivity|]. unfold Qle; simpl; lia.
    + repeat split; vm_compute; reflexivity.
  - split; [vm_compute; reflexivity|]. split.
    + eexists. eexists. split; [vm_compute; reflexivity|]. reflexivity.
    + repeat split; vm_compute; reflexivity.
Qed.

(** C3 (the code at the failing input): the user has one credit and
    starts tracking from a freshly mounted hook.  The interval callback
    holds the [stopTracking] of the render in which [startTracking] ran,
    whose [sessionId] is [null].  The first heartbeat is answered with
    [creditsRemaining = 0]; the callback clears the interval and resets
    the state, and sends no [endSession]; a stop pressed afterwards sends
    none either.  The session stays active in the ledger. *)
Theorem endSession_not_sent_on_quota :
  let w1 := Scenario.press_start (Scenario.mounted (Scenario.db_new 1)) in
  let w2 := Scenario.minute_later 1%nat w1 in
  let w3 := Scenario.press_stop w2 in
  sessionId (react w1) = Some 1%nat
  /\ timers w1 = [(1%nat, {| clerkUser_id := Some "user_a"%string;
                             captured_sessionId := None |})]
  /\ (exists db',
        Ledger.incrementSessionCredits "user_a" 61000 (ledger w1)
        = Returned {| Ledger.creditsRemaining := 0;
                      Ledger.sessionCreditsUsed := 1 |} db')
  /\ timers w2 = [] /\ intervalRef w2 = None
  /\ isTracking (react w2) = false /\ sessionId (react w2) = None
  /\ endSession_calls 1%nat w2 = 0%nat
  /\ endSession_calls 1%nat w3 = 0%nat
  /\ calls w3 = [CallStartSession Scenario.args_en_sv;
                 CallIncrementSessionCredits "user_a"]
  /\ option_map Ledger.isActive (Ledger.session_of 1%nat (ledger w3)) = Some true
  /\ option_map Ledger.endedAt (Ledger.session_of 1%nat (ledger w3)) = Some None.
Proof.
  cbv zeta. split; [vm_compute; reflexivity|].
  split; [vm_compute; reflexivity|]. split.
  - eexists. vm_compute. reflexivity.
  - repeat split; vm_compute; reflexivity.
Qed.


Lemma find_fresh_timer (ts : list (TimerId * Closure)) (n : TimerId) (env : Closure) :
  Forall (fun k => (k <= n)%nat) (map fst ts) ->
  find (fun p => Nat.eqb (fst p) (S n)) (ts ++ [(S n, env)]) = Some (S n, env).
Proof.
  induction ts as [|[a c] ts IH]; simpl; intros H.
  - rewrite Nat.eqb_refl. reflexivity.
  - inversion H as [|? ? Ha Hts]; subst.
    replace (Nat.eqb a (S n)) with false
      by (symmetry; apply Nat.eqb_neq; lia).
    apply IH. exact Hts.
Qed.

(** What a successful [startTracking] of the per-minute hook has done:
    the interval it registers holds the environment of the render in
    which [startTracking] itself was created. *)
Lemma PerMinute_startTracking_returned
    (env : Closure) (languageFrom languageTo : string) (w : World)
    (sid : Ledger.Id) (w1 : World) :
  PerMinute.startTracking env languageFrom languageTo w = Returned sid w1 ->
  exists clerk,
    clerkUser_id env = Some clerk
    /\ sessionId (react w1) = Some sid
    /\ isTracking (react w1) = true
    /\ intervalRef w1 = Some (S (list_max (map fst (timers w))))
    /\ timers w1 = timers w ++ [(S (list_max (map fst (timers w))), env)]
    /\ calls w1 = calls w ++ [CallStartSession
                               {| Ledger.arg_clerkId := clerk;
                                  Ledger.arg_languageFrom := languageFrom;
                                  Ledger.arg_languageTo := languageTo |}].
Proof.
  unfold PerMinute.startTracking.
  destruct (clerkUser_id env) as [clerk|]; [|discriminate].
  unfold try_catch, bind, call.
  destruct (Ledger.startSession _ (clock w) (ledger w)) as [s db'|msg db'];
    simpl; [|discriminate].
  intros H. injection H as <- <-. exists clerk. simpl. auto 10.
Qed.

(** Whatever the heartbeat answers, the interval registered by a
    [startTracking] that ran in a render without session sends no
    [endSession]: its [stopTracking] tests that render's [sessionId]. *)
Lemma PerMinute_interval_never_ends_session
    (hb : string -> Z -> M Ledger.Db Ledger.IncrementResult)
    (clerk languageFrom languageTo : string) (w : World)
    (sid : Ledger.Id) (w1 : World) :
  sessionId (react w) = None ->
  PerMinute.startTracking (render (Some clerk) w) languageFrom languageTo w
    = Returned sid w1 ->
  exists t w2,
    intervalRef w1 = Some t
    /\ PerMinute.fire hb t w1 = Returned tt w2
    /\ calls w2 = calls w1 ++ [CallIncrementSessionCredits clerk]
    /\ endSession_calls sid w2 = endSession_calls sid w1.
Proof.
  intros Hnone Hstart.
  destruct (PerMinute_startTracking_returned _ _ _ _ _ _ Hstart)
    as (clerk' & Hclerk & _ & _ & Hi & Ht & _).
  simpl in Hclerk. injection Hclerk as <-.
  destruct (PerMinute_interval_callback_calls hb (render (Some clerk) w) clerk w1)
    as (w2 & rest & E & Hc & Hrest).
  exists (S (list_max (map fst (timers w)))), w2.
  split; [exact Hi|].
  assert (Hrest' : rest = []).
  { destruct Hrest as [->|(s & Hs & _)]; [reflexivity|].
    simpl in Hs. congruence. }
  subst rest.
  split; [|split].
  - unfold PerMinute.fire, bind, gets. rewrite Ht.
    rewrite find_fresh_timer; [exact E|].
    apply list_max_le. apply Nat.le_refl.
  - exact Hc.
  - unfold endSession_calls. rewrite Hc, filter_app. simpl.
    rewrite app_nil_r. reflexivity.
Qed.

Lemma PerMinute_interval_never_ends_session_witness :
  exists t w2,
    intervalRef (Scenario.press_start (Scenario.mounted (Scenario.db_new 1))) = Some t
    /\ PerMinute.fire PerMinute.heartbeat t
         (Scenario.press_start (Scenario.mounted (Scenario.db_new 1))) = Returned tt w2
    /\ calls w2 = calls (Scenario.press_start (Scenario.mounted (Scenario.db_new 1)))
                  ++ [CallIncrementSessionCredits "user_a"]
    /\ endSession_calls 1%nat w2
       = endSession_calls 1%nat (Scenario.press_start (Scenario.mounted (Scenario.db_new 1))).
Proof.
  apply (PerMinute_interval_never_ends_session PerMinute.heartbeat
           "user_a" "en" "sv" (Scenario.mounted (Scenario.db_new 1)) 1%nat).
  - reflexivity.
  - reflexivity.
Defined.


(** The same holds of the 3-second hook, for every handler of
    [updateFractionalCredits]. *)
Lemma PerSecond_startTracking_returned
    (env : Closure) (languageFrom languageTo : string) (w : World)
    (sid : Ledger.Id) (w1 : World) :
  PerSecond.startTracking env languageFrom languageTo w = Returned sid w1 ->
  exists clerk,
    clerkUser_id env = Some clerk
    /\ sessionId (react w1) = Some sid
    /\ isTracking (react w1) = true
    /\ intervalRef w1 = Some (S (list_max (map fst (timers w))))
    /\ timers w1 = timers w ++ [(S (list_max (map fst (timers w))), env)]
    /\ calls w1 = calls w ++ [CallStartSession
                               {| Ledger.arg_clerkId := clerk;
                                  Ledger.arg_languageFrom := languageFrom;
                                  Ledger.arg_languageTo := languageTo |}].
Proof.
  unfold PerSecond.startTracking.
  destruct (clerkUser_id env) as [clerk|]; [|discriminate].
  unfold try_catch, bind, call.
  destruct (Ledger.startSession _ (clock w) (ledger w)) as [s db'|msg db'];
    simpl; [|discriminate].
  intros H. injection H as <- <-. exists clerk. simpl. auto 10.
Qed.

Lemma PerSecond_interval_never_ends_session
    (hb : string -> Q -> Z -> M Ledger.Db PerSecond.FractionalResult)
    (clerk languageFrom languageTo : string) (w : World)
    (sid : Ledger.Id) (w1 : World) :
  sessionId (react w) = None ->
  PerSecond.startTracking (render (Some clerk) w) languageFrom languageTo w
    = Returned sid w1 ->
  exists t w2,
    intervalRef w1 = Some t
    /\ PerSecond.fire hb t w1 = Returned tt w2
    /\ calls w2 = calls w1 ++ [CallUpdateFractionalCredits clerk 3]
    /\ endSession_calls sid w2 = endSession_calls sid w1.
Proof.
  intros Hnone Hstart.
  destruct (PerSecond_startTracking_returned _ _ _ _ _ _ Hstart)
    as (clerk' & Hclerk & _ & _ & Hi & Ht & _).
  simpl in Hclerk. injection Hclerk as <-.
  destruct (PerSecond_interval_callback_calls hb (render (Some clerk) w) clerk w1)
    as (w2 & rest & E & Hc & Hrest).
  exists (S (list_max (map fst (timers w)))), w2.
  split; [exact Hi|].
  assert (Hrest' : rest = []).
  { destruct Hrest as [->|(s & Hs & _)]; [reflexivity|].
    simpl in Hs. congruence. }
  subst rest.
  split; [|split].
  - unfold PerSecond.fire, bind, gets. rewrite Ht.
    rewrite find_fresh_timer; [exact E|].
    apply list_max_le. apply Nat.le_refl.
  - exact Hc.
  - unfold endSession_calls. rewrite Hc, filter_app. simpl.
    rewrite app_nil_r. reflexivity.
Qed.

(** Pressed in a render that holds the session, stop sends [endSession]
    for it once; pressed again after the state has been reset, it sends
    nothing. *)
Example stop_pressed_while_tracking :
  let w1 := Scenario.press_start (Scenario.mounted (Scenario.db_new 5)) in
  let w2 := Scenario.press_stop w1 in
  let w3 := Scenario.press_stop w2 in
  endSession_calls 1%nat w2 = 1%nat
  /\ endSession_calls 1%nat w3 = 1%nat
  /\ option_map Ledger.isActive (Ledger.session_of 1%nat (ledger w3)) = Some false
  /\ timers w2 = [].
Proof.
  cbv zeta. repeat split; vm_compute; reflexivity.
Qed.

(** C4 (as stated, refuted): the same user starts a session on this
    device (session 1) and then on a second device (session 2).  The hook
    of this device holds the handle 1.  Its heartbeat call carries neither
    a session handle nor seconds, and the ledger charges session 2. *)
Lemma heartbeat_not_by_session_handle :
  let w1 := Scenario.press_start (Scenario.mounted (Scenario.db_new 5)) in
  let w2 := Scenario.second_device w1 in
  let w3 := Scenario.minute_later 1%nat w2 in
  sessionId (react w2) = Some 1%nat
  /\ calls w3 = calls w2 ++ [CallIncrementSessionCredits "user_a"]
  /\ ~ (forall c, In c (calls w3) -> is_heartbeat c = true ->
          session_handle_of c = sessionId (react w2) /\ seconds_of c <> None)
  /\ option_map Ledger.creditsUsed (Ledger.session_of 1%nat (ledger w3)) = Some 0
  /\ option_map Ledger.creditsUsed (Ledger.session_of 2%nat (ledger w3)) = Some 1.
Proof.
  cbv zeta. split; [vm_compute; reflexivity|].
  split; [vm_compute; reflexivity|]. split.
  - intros H.
    destruct (H (CallIncrementSessionCredits "user_a")) as [Hh _].
    + vm_compute. right. left. reflexivity.
    + reflexivity.
    + vm_compute in Hh. discriminate.
  - split; vm_compute; reflexivity.
Qed.

(** C4 (as amended): a heartbeat names the user, by clerk id: the
    per-minute hook sends [incrementSessionCredits({clerkId})], the
    3-second hook [updateFractionalCredits({clerkId, secondsToAdd: 3})],
    whatever session the hook holds.  The ledger of
    [convex/usageSessions.ts] charges the first active session of that
    user, and its answer holds the balance it has written.  The two other
    calls are [startSession({clerkId, languageFrom, languageTo})], which
    gives the session id, and [endSession({sessionId})]. *)
Theorem heartbeat_interface
    (clerk : string) (now : Z) (db : Ledger.Db)
    (user : Ledger.User) (activeSession : Ledger.UsageSession) :
  hd_error (Ledger.users_by_clerk_id clerk db) = Some user ->
  hd_error (Ledger.sessions_by_active (Ledger.user_id user) db) = Some activeSession ->
  0 < Ledger.credits user ->
  (forall env w, exists w' rest,
      PerMinute.interval_callback PerMinute.heartbeat env clerk w = Returned tt w'
      /\ calls w' = calls w ++ CallIncrementSessionCredits clerk :: rest
      /\ Forall (fun c => is_heartbeat c = false) rest)
  /\ (forall hb env w, exists w' rest,
      PerSecond.interval_callback hb env clerk w = Returned tt w'
      /\ calls w' = calls w ++ CallUpdateFractionalCredits clerk 3 :: rest
      /\ Forall (fun c => is_heartbeat c = false) rest)
  /\ exists db',
      Ledger.incrementSessionCredits clerk now db
      = Returned {| Ledger.creditsRemaining := Ledger.credits user - 1;
                    Ledger.sessionCreditsUsed := Ledger.creditsUsed activeSession + 1 |}
                 db'
      /\ In (Ledger.patch_credits (Ledger.credits user - 1) now user) (Ledger.users db')
      /\ In (Ledger.patch_creditsUsed (Ledger.creditsUsed activeSession + 1) activeSession)
            (Ledger.usageSessions db')
      /\ (forall env languageFrom languageTo w sid w1,
            PerMinute.startTracking env languageFrom languageTo w = Returned sid w1 ->
            exists c,
              clerkUser_id env = Some c
              /\ sessionId (react w1) = Some sid
              /\ calls w1 = calls w ++ [CallStartSession
                                          {| Ledger.arg_clerkId := c;
                                             Ledger.arg_languageFrom := languageFrom;
                                             Ledger.arg_languageTo := languageTo |}])
      /\ (forall env w sid,
            captured_sessionId env = Some sid ->
            calls (state_of (PerMinute.stopTracking env w))
            = calls w ++ [CallEndSession sid]).
Proof.
  intros Hu Hs Hc.
  assert (Hrest : forall env rest,
            rest = [] \/
            (exists sid, captured_sessionId env = Some sid /\ rest = [CallEndSession sid]) ->
            Forall (fun c => is_heartbeat c = false) rest).
  { intros env rest [->|(sid & _ & ->)]; repeat constructor. }
  split; [|split].
  - intros env w.
    destruct (PerMinute_interval_callback_calls PerMinute.heartbeat env clerk w)
      as (w' & rest & E & Hcalls & Hr).
    exists w', rest. split; [exact E|]. split; [exact Hcalls|].
    apply (Hrest env). exact Hr.
  - intros hb env w.
    destruct (PerSecond_interval_callback_calls hb env clerk w)
      as (w' & rest & E & Hcalls & Hr).
    exists w', rest. split; [exact E|]. split; [exact Hcalls|].
    apply (Hrest env). exact Hr.
  - eexists. split.
    + apply incrementSessionCredits_charges; eassumption.
    + simpl. split; [|split; [|split]].
      * apply patch_in_In. apply hd_error_filter in Hu. apply Hu.
      * apply patch_in_In. apply hd_error_filter in Hs. apply Hs.
      * intros env languageFrom languageTo w sid w1 Hstart.
        destruct (PerMinute_startTracking_returned _ _ _ _ _ _ Hstart)
          as (c & Hclerk & Hsid & _ & _ & _ & Hcalls).
        exists c. auto.
      * intros env w sid Hsid.
        destruct (PerMinute_stopTracking_spec env w) as (w' & E & _ & _ & _ & Hcalls).
        rewrite E. simpl. rewrite Hcalls, Hsid. reflexivity.
Qed.

Lemma heartbeat_interface_witness :
  exists db',
    Ledger.incrementSessionCredits "user_a" 2000
      (Scenario.db_with 5 [Scenario.session_en_sv 4%nat true])
    = Returned {| Ledger.creditsRemaining := 5 - 1;
                  Ledger.sessionCreditsUsed := 0 + 1 |} db'
    /\ In (Ledger.patch_credits (5 - 1) 2000 (Scenario.user_with 5)) (Ledger.users db')
    /\ In (Ledger.patch_creditsUsed (0 + 1) (Scenario.session_en_sv 4%nat true))
          (Ledger.usageSessions db')
    /\ (forall env languageFrom languageTo w sid w1,
          PerMinute.startTracking env languageFrom languageTo w = Returned sid w1 ->
          exists c,
            clerkUser_id env = Some c
            /\ sessionId (react w1) = Some sid
            /\ calls w1 = calls w ++ [CallStartSession
                                        {| Ledger.arg_clerkId := c;
                                           Ledger.arg_languageFrom := languageFrom;
                                           Ledger.arg_languageTo := languageTo |}])
    /\ (forall env w sid,
          captured_sessionId env = Some sid ->
          calls (state_of (PerMinute.stopTracking env w))
          = calls w ++ [CallEndSession sid]).
Proof.
  apply (proj2 (proj2 (heartbeat_interface "user_a" 2000
           (Scenario.db_with 5 [Scenario.session_en_sv 4%nat true])
           (Scenario.user_with 5) (Scenario.session_en_sv 4%nat true)
           eq_refl eq_refl eq_refl))).
Defined.

End HookFacts.

(** * Properties of the audio visualizer *)

Section VisualizerFacts.

Import AudioVisualizer.
Local Open Scope Q_scope.

Lemma Qgt_bool_iff (x y : Q) : Qgt_bool x y = true <-> y < x.
Proof.
  unfold Qgt_bool. split.
  - intros H. apply Qnot_le_lt. intros Hle.
    apply Qle_bool_iff in Hle. rewrite Hle in H. discriminate.
  - intros H. destruct (Qle_bool x y) eqn:E; [|reflexivity].
    apply Qle_bool_iff in E. exfalso. apply (Qlt_irrefl y).
    eapply Qlt_le_trans; eassumption.
Qed.

Lemma Qgt_bool_false_iff (x y : Q) : Qgt_bool x y = false <-> x <= y.
Proof.
  unfold Qgt_bool. rewrite negb_false_iff. apply Qle_bool_iff.
Qed.

(** C6: the indicator computed by [animateDots] is 'speaking' exactly
    when the level is strictly above the threshold, -40 dB, and 'silent'
    otherwise; equal levels get the same indicator, and the indicator
    alone chooses between the wave and the idle animation, whatever the
    state of the component. *)
Theorem speech_indicator (level : Q) :
  SPEECH_THRESHOLD == -40
  /\ (isSpeaking level = true <-> -40 < level)
  /\ (isSpeaking level = false <-> level <= -40)
  /\ (forall level', level == level' -> isSpeaking level' = isSpeaking level)
  /\ (forall sine w,
        animateDots sine level w
        = if isSpeaking level then for_each_dot (wave level) w
          else for_each_dot (idle sine (clock w)) w).
Proof.
  split; [reflexivity|].
  split; [apply Qgt_bool_iff|].
  split; [apply Qgt_bool_false_iff|].
  split.
  - intros level' E. unfold isSpeaking.
    destruct (Qgt_bool level SPEECH_THRESHOLD) eqn:H.
    + apply Qgt_bool_iff. apply Qgt_bool_iff in H. rewrite <- E. exact H.
    + apply Qgt_bool_false_iff. apply Qgt_bool_false_iff in H. rewrite <- E. exact H.
  - intros sine w. unfold animateDots.
    destruct (isSpeaking level); reflexivity.
Qed.

Lemma map_const_seq {A} (c : A) (l : list A) (a : nat) :
  map (fun _ => c) (seq a (List.length l)) = map (fun _ => c) l.
Proof.
  revert a. induction l as [|x l IH]; intros a; simpl; [reflexivity|].
  rewrite IH. reflexivity.
Qed.

Lemma reset_dots_twice (w : World) :
  with_dots (fun ds => map (fun _ => RESET) (seq 0 (List.length ds)))
    (with_dots (fun ds => map (fun _ => RESET) (seq 0 (List.length ds))) w)
  = with_dots (fun ds => map (fun _ => RESET) (seq 0 (List.length ds))) w.
Proof.
  unfold with_dots. simpl. f_equal.
  rewrite length_map, length_seq. reflexivity.
Qed.

(** [stopMonitoring] returns in every state of the component and of the
    device: the one call that can reject is inside its [try]. *)
Lemma stopMonitoring_never_throws (env : Closure) (w : World) :
  threw (stopMonitoring env w) = false.
Proof.
  unfold stopMonitoring, stopAndUnloadAsync, native, clearInterval, for_each_dot.
  unfold bind, gets, try_catch, modify, ret, throw.
  destruct (intervalRef w); destruct (captured_recording env) as [r|]; simpl;
    try reflexivity;
    destruct (existsb (NativeCall_eqb StopAndUnload) (rejecting w)); simpl;
    try reflexivity;
    match goal with
    | |- context [recorder_state ?x] => destruct (recorder_state x)
    end; reflexivity.
Qed.

(** C7: when capture is stopped (no interval referenced, no recording
    held), [stopMonitoring] returns without an error and touches nothing
    but the dots, which it sends back to rest; called again, it leaves the
    state exactly as it is. *)
Theorem stopMonitoring_idempotent (env : Closure) (w : World) :
  stopped env w ->
  exists w',
    stopMonitoring env w = Returned tt w'
    /\ w' = with_dots (map (fun _ => RESET)) w
    /\ Forall (fun a => settles_at a == 1) (dots w')
    /\ stopped env w'
    /\ stopMonitoring env w' = Returned tt w'.
Proof.
  intros [Hi Hr].
  assert (E : forall x, intervalRef x = None ->
            stopMonitoring env x
            = Returned tt (with_dots (map (fun _ => RESET)) x)).
  { intros x Hx. unfold stopMonitoring, bind, gets, ret, for_each_dot, modify.
    rewrite Hx, Hr. unfold with_dots. rewrite map_const_seq. reflexivity. }
  exists (with_dots (map (fun _ => RESET)) w).
  split; [apply E; exact Hi|]. split; [reflexivity|]. split.
  - simpl. apply Forall_forall. intros a Ha. apply in_map_iff in Ha.
    destruct Ha as (_ & <- & _). reflexivity.
  - split; [split; [exact Hi | exact Hr]|].
    rewrite E by exact Hi. f_equal.
    unfold with_dots. simpl. rewrite map_map. reflexivity.
Qed.


Lemma stopMonitoring_idempotent_witness :
  exists w',
    stopMonitoring (render false true Scenario.stopped_once) Scenario.stopped_once
      = Returned tt w'
    /\ w' = with_dots (map (fun _ => RESET)) Scenario.stopped_once
    /\ Forall (fun a => settles_at a == 1) (dots w')
    /\ stopped (render false true Scenario.stopped_once) w'
    /\ stopMonitoring (render false true Scenario.stopped_once) w' = Returned tt w'.
Proof.
  apply (stopMonitoring_idempotent
           (render false true Scenario.stopped_once) Scenario.stopped_once).
  split; reflexivity.
Defined.

(** The first stop of the example has unloaded the recorder and cleared
    the interval; the second finds the state as the first left it. *)
Example stop_after_monitoring :
  timers Scenario.monitoring <> []
  /\ recorder_state (recorder_at 0%nat Scenario.monitoring) = Running
  /\ timers Scenario.stopped_once = []
  /\ intervalRef Scenario.stopped_once = None
  /\ recording Scenario.stopped_once = None
  /\ recorder_state (recorder_at 0%nat Scenario.stopped_once) = Unloaded
  /\ state_of (stopMonitoring (render false true Scenario.stopped_once)
                 Scenario.stopped_once) = Scenario.stopped_once.
Proof.
  split; [discriminate|]. repeat split; reflexivity.
Qed.

Lemma set_recorder_unloaded (r : RecordingId) (x d : Recorder) (l : list Recorder) :
  recorder_state x = Unloaded ->
  recorder_state d = Unloaded ->
  recorder_state (nth r (set_recorder r x l) d) = Unloaded.
Proof.
  intros Hx Hd. revert l. unfold set_recorder.
  induction r as [|r IH]; intros [|a l]; simpl; try assumption.
  apply IH.
Qed.

(** Stopping twice is stopping once, in every state and with every
    closure, also one that still holds a recording that has been unloaded
    or whose unloading rejects. *)
Lemma stopMonitoring_twice (env : Closure) (w : World) :
  stopMonitoring env (state_of (stopMonitoring env w))
  = Returned tt (state_of (stopMonitoring env w)).
Proof.
  destruct w as [pg rej met am recs rec iref ts ds rep clk].
  unfold stopMonitoring, stopAndUnloadAsync, native, clearInterval, for_each_dot.
  unfold bind, gets, try_catch, modify, ret, throw, recorder_at.
  unfold with_dots, with_intervalRef, with_timers, with_recording, with_recorders.
  destruct (captured_recording env) as [r|].
  - destruct (existsb (NativeCall_eqb StopAndUnload) rej) eqn:Hrej.
    + destruct iref;
        repeat (progress (cbn -[set_recorder nth seq List.length map];
                          rewrite ?Hrej));
        rewrite length_map, length_seq; reflexivity.
    + destruct (recorder_state (nth r recs {| prepared_with := None;
                                              recorder_state := Unloaded |})) eqn:Hst;
        destruct iref;
        repeat (progress (cbn -[set_recorder nth seq List.length map];
                          rewrite ?Hrej, ?Hst,
                            ?set_recorder_unloaded by reflexivity));
        rewrite length_map, length_seq; reflexivity.
  - destruct iref; cbn -[seq List.length map];
      rewrite length_map, length_seq; reflexivity.
Qed.


Lemma set_recorder_last (l : list Recorder) (x y : Recorder) :
  set_recorder (List.length l) y (l ++ [x]) = l ++ [y].
Proof.
  unfold set_recorder.
  rewrite firstn_app, Nat.sub_diag, firstn_all. simpl. rewrite app_nil_r.
  rewrite skipn_app, Nat.sub_diag, skipn_all. reflexivity.
Qed.

Lemma recorderExists_new (l : list Recorder) :
  existsb holds_recorder l = false ->
  existsb holds_recorder
    (l ++ [{| prepared_with := None; recorder_state := Created |}]) = false.
Proof.
  intros H. rewrite existsb_app, H. reflexivity.
Qed.



(** Every 100 ms the component reports a level, not a frame: with the
    recorder of the example at -30 dB, the callback passes -30 to
    [onAudioLevel] and starts the wave on the 13 dots. *)
Example level_reported (sine : Z -> nat -> Q) :
  let w := state_of (fire sine 1%nat Scenario.monitoring) in
  reported w = [-30]
  /\ dots w = map (wave (-30)) (seq 0 13%nat).
Proof.
  split; reflexivity.
Qed.

End VisualizerFacts.

(** * Further properties of the ledger *)

Section LedgerMore.

Import Ledger.
Local Open Scope Q_scope.

Lemma fresh_id_new (tbl : list UsageSession) (s : UsageSession) :
  In s tbl -> Nat.eqb (session_id s) (fresh_id tbl) = false.
Proof.
  intros H. apply Nat.eqb_neq. unfold fresh_id.
  assert (Hle : (session_id s <= list_max (map session_id tbl))%nat).
  { assert (Hall : Forall (fun k => (k <= list_max (map session_id tbl))%nat)
                     (map session_id tbl)).
    { apply list_max_le. apply Nat.le_refl. }
    rewrite Forall_forall in Hall. apply Hall. apply in_map. exact H. }
  lia.
Qed.

Lemma find_last_only {A} (p : A -> bool) (l : list A) (x : A) :
  (forall y, In y l -> p y = false) -> p x = true ->
  find p (l ++ [x]) = Some x.
Proof.
  intros Hl Hx. induction l as [|a l IH]; simpl.
  - rewrite Hx. reflexivity.
  - rewrite (Hl a (or_introl eq_refl)). apply IH.
    intros y Hy. apply Hl. right; exact Hy.
Qed.

Lemma ended_if_id (ids : list Id) (now : Z) (s : UsageSession) :
  session_id (ended_if ids now s) = session_id s.
Proof. unfold ended_if. destruct (existsb (Nat.eqb (session_id s)) ids); reflexivity. Qed.

Lemma ended_if_userId (ids : list Id) (now : Z) (s : UsageSession) :
  userId (ended_if ids now s) = userId s.
Proof. unfold ended_if. destruct (existsb (Nat.eqb (session_id s)) ids); reflexivity. Qed.

Lemma ended_if_creditsUsed (ids : list Id) (now : Z) (s : UsageSession) :
  creditsUsed (ended_if ids now s) = creditsUsed s.
Proof. unfold ended_if. destruct (existsb (Nat.eqb (session_id s)) ids); reflexivity. Qed.

Lemma find_patch_in (id : Id) (f : UsageSession -> UsageSession) (tbl : list UsageSession) :
  (forall s, session_id (f s) = session_id s) ->
  find (fun s => Nat.eqb (session_id s) id) (patch_in session_id id f tbl)
  = option_map f (find (fun s => Nat.eqb (session_id s) id) tbl).
Proof.
  intros Hf. induction tbl as [|a l IH]; simpl; [reflexivity|].
  destruct (Nat.eqb (session_id a) id) eqn:E.
  - rewrite Hf, E. reflexivity.
  - rewrite E. exact IH.
Qed.

Lemma map_key_patch_in {A} (key : A -> Id) (id : Id) (f : A -> A) (tbl : list A) :
  (forall d, key (f d) = key d) ->
  map key (patch_in key id f tbl) = map key tbl.
Proof.
  intros Hf. unfold patch_in. rewrite map_map. apply map_ext.
  intros d. destruct (Nat.eqb (key d) id); [apply Hf | reflexivity].
Qed.

Lemma startSession_fresh (args : StartArgs) (now : Z) (db : Db) (sid : Id) (db' : Db) :
  startSession args now db = Returned sid db' ->
  forall s, In s (usageSessions db) -> Nat.eqb (session_id s) sid = false.
Proof.
  unfold startSession, bind, first, collect, gets.
  destruct (hd_error (users_by_clerk_id (arg_clerkId args) db)) as [user|]; [|discriminate].
  destruct (Qle_bool (credits user) 0); [discriminate|].
  rewrite for_each_patch_ended. unfold insert_session, ret. simpl.
  intros H s Hs. injection H as <- _.
  rewrite <- (ended_if_id (map session_id (sessions_by_active (user_id user) db)) now s).
  apply fresh_id_new. apply in_map. exact Hs.
Qed.

(** After a successful [startSession] the one active session of the
    user is the inserted one. *)
Lemma startSession_active_after
    (args : StartArgs) (now : Z) (db : Db) (sid : Id) (db' : Db) (user : User) :
  startSession args now db = Returned sid db' ->
  hd_error (users_by_clerk_id (arg_clerkId args) db) = Some user ->
  sessions_by_active (user_id user) db' = [inserted_by args now user sid].
Proof.
  intros H Hu.
  destruct (startSession_returned _ _ _ _ _ H) as (user' & Hu' & _ & Ht & _).
  rewrite Hu in Hu'. injection Hu' as <-.
  unfold sessions_by_active at 1. rewrite Ht, filter_app.
  rewrite filter_none.
  - simpl. unfold is_active_of. simpl. rewrite Nat.eqb_refl. reflexivity.
  - intros x Hx. apply in_map_iff in Hx. destruct Hx as (d & <- & Hd).
    apply ended_if_inactive. exact Hd.
Qed.

Lemma startSession_session_of
    (args : StartArgs) (now : Z) (db : Db) (sid : Id) (db' : Db) (user : User) :
  startSession args now db = Returned sid db' ->
  hd_error (users_by_clerk_id (arg_clerkId args) db) = Some user ->
  session_of sid db' = Some (inserted_by args now user sid).
Proof.
  intros H Hu.
  destruct (startSession_returned _ _ _ _ _ H) as (user' & Hu' & _ & Ht & _).
  rewrite Hu in Hu'. injection Hu' as <-.
  unfold session_of. rewrite Ht. apply find_last_only.
  - intros y Hy. apply in_map_iff in Hy. destruct Hy as (d & <- & Hd).
    rewrite ended_if_id. eapply startSession_fresh; eassumption.
  - simpl. apply Nat.eqb_refl.
Qed.

Lemma startSession_same_user
    (args : StartArgs) (now : Z) (db : Db) (sid : Id) (db' : Db) (clerk : string) :
  startSession args now db = Returned sid db' ->
  users_by_clerk_id clerk db' = users_by_clerk_id clerk db.
Proof.
  intros H.
  destruct (startSession_returned _ _ _ _ _ H) as (_ & _ & _ & _ & Husers).
  unfold users_by_clerk_id. rewrite Husers. reflexivity.
Qed.

(** X1: the id [startSession] returns names the session it has inserted:
    [get] finds it, and it is what [getActiveSession] answers for the
    user: nothing used yet, the languages asked for, [startedAt] the time
    of the call. *)
Theorem startSession_then_lookup (args : StartArgs) (now : Z) (db : Db) (sid : Id) (db' : Db) :
  startSession args now db = Returned sid db' ->
  exists user,
    hd_error (users_by_clerk_id (arg_clerkId args) db) = Some user
    /\ session_of sid db' = Some (inserted_by args now user sid)
    /\ getActiveSession (arg_clerkId args) db' = Some (inserted_by args now user sid).
Proof.
  intros H.
  destruct (startSession_returned _ _ _ _ _ H) as (user & Hu & _).
  exists user. split; [exact Hu|]. split.
  - eapply startSession_session_of; eassumption.
  - unfold getActiveSession.
    rewrite (startSession_same_user _ _ _ _ _ _ H), Hu.
    rewrite (startSession_active_after _ _ _ _ _ _ H Hu). reflexivity.
Qed.

Lemma startSession_then_lookup_witness :
  exists user,
    hd_error (users_by_clerk_id "user_a"
                (Scenario.db_with 5 [Scenario.session_en_sv 4%nat true])) = Some user
    /\ session_of 5%nat
         (state_of (startSession Scenario.args_en_sv 2000
                      (Scenario.db_with 5 [Scenario.session_en_sv 4%nat true])))
       = Some (inserted_by Scenario.args_en_sv 2000 user 5%nat)
    /\ getActiveSession "user_a"
         (state_of (startSession Scenario.args_en_sv 2000
                      (Scenario.db_with 5 [Scenario.session_en_sv 4%nat true])))
       = Some (inserted_by Scenario.args_en_sv 2000 user 5%nat).
Proof.
  apply (startSession_then_lookup Scenario.args_en_sv 2000
           (Scenario.db_with 5 [Scenario.session_en_sv 4%nat true]) 5%nat).
  reflexivity.
Defined.

Lemma endSession_active (sessionId : Id) (now : Z) (db : Db) (session : UsageSession) :
  session_of sessionId db = Some session ->
  isActive session = true ->
  endSession sessionId now db
  = Returned (Some {| final_creditsUsed := creditsUsed session;
                      duration := (now - startedAt session)%Z |})
      {| users := users db;
         usageSessions := patch_in session_id sessionId (patch_ended now)
                            (usageSessions db) |}.
Proof.
  intros Hs Ha. unfold endSession, bind, get_session, gets.
  rewrite Hs, Ha. reflexivity.
Qed.

(** X2: [endSession] on an active session answers with what the session
    has used and how long it ran, leaves the users as they are and the
    session ended at the time of the call; a second [endSession] for the
    same id answers nothing and writes nothing. *)
Theorem endSession_ends_once
    (sessionId : Id) (now now' : Z) (db : Db) (session : UsageSession) :
  session_of sessionId db = Some session ->
  isActive session = true ->
  exists db',
    endSession sessionId now db
    = Returned (Some {| final_creditsUsed := creditsUsed session;
                        duration := (now - startedAt session)%Z |}) db'
    /\ users db' = users db
    /\ session_of sessionId db' = Some (patch_ended now session)
    /\ endSession sessionId now' db' = Returned None db'.
Proof.
  intros Hs Ha. eexists. split; [apply endSession_active; eassumption|].
  split; [reflexivity|].
  assert (Hs' : session_of sessionId
                  {| users := users db;
                     usageSessions := patch_in session_id sessionId (patch_ended now)
                                        (usageSessions db) |}
                = Some (patch_ended now session)).
  { unfold session_of in *. simpl. rewrite find_patch_in by reflexivity.
    rewrite Hs. reflexivity. }
  split; [exact Hs'|].
  unfold endSession, bind, get_session, gets. rewrite Hs'. reflexivity.
Qed.

Lemma endSession_ends_once_witness :
  exists db',
    endSession 4%nat 2000 (Scenario.db_with 5 [Scenario.session_en_sv 4%nat true])
    = Returned (Some {| final_creditsUsed := 0; duration := (2000 - 500)%Z |}) db'
    /\ users db' = [Scenario.user_with 5]
    /\ session_of 4%nat db' = Some (patch_ended 2000 (Scenario.session_en_sv 4%nat true))
    /\ endSession 4%nat 3000 db' = Returned None db'.
Proof.
  apply (endSession_ends_once 4%nat 2000 3000
           (Scenario.db_with 5 [Scenario.session_en_sv 4%nat true])
           (Scenario.session_en_sv 4%nat true)); reflexivity.
Defined.

(** After [endSession] of the user's only active session, no session of
    the user is active. *)
Lemma none_active_after_end
    (uid : Id) (sid : Id) (now : Z) (tbl : list UsageSession) (only : UsageSession) :
  filter (is_active_of uid) tbl = [only] ->
  session_id only = sid ->
  filter (is_active_of uid) (patch_in session_id sid (patch_ended now) tbl) = [].
Proof.
  intros Hact Hid. apply filter_none. intros x Hx.
  unfold patch_in in Hx. apply in_map_iff in Hx. destruct Hx as (d & <- & Hd).
  destruct (Nat.eqb (session_id d) sid) eqn:E.
  - apply patch_ended_inactive.
  - destruct (is_active_of uid d) eqn:Ha; [|reflexivity].
    assert (Hin : In d (filter (is_active_of uid) tbl)).
    { apply filter_In. split; assumption. }
    rewrite Hact in Hin. destruct Hin as [<-|[]].
    rewrite Hid, Nat.eqb_refl in E. discriminate.
Qed.

(** X3: a session that was started and then ended is closed for good:
    [endSession] answers with nothing used and the time between the two
    calls, the user has no active session afterwards, and a heartbeat
    that still arrives throws 'No active session found' without writing,
    so nothing is charged after the end. *)
Theorem session_round_trip
    (args : StartArgs) (now now' now'' : Z) (db : Db) (sid : Id) (db1 : Db) :
  startSession args now db = Returned sid db1 ->
  exists db2,
    endSession sid now' db1
    = Returned (Some {| final_creditsUsed := 0; duration := (now' - now)%Z |}) db2
    /\ getActiveSession (arg_clerkId args) db2 = None
    /\ credits_held db2 = credits_held db
    /\ incrementSessionCredits (arg_clerkId args) now'' db2
       = Threw "No active session found" db2.
Proof.
  intros H.
  destruct (startSession_returned _ _ _ _ _ H) as (user & Hu & _ & _ & Husers).
  pose proof (startSession_session_of _ _ _ _ _ _ H Hu) as Hs.
  pose proof (startSession_active_after _ _ _ _ _ _ H Hu) as Hact.
  pose proof (startSession_same_user _ _ _ _ _ (arg_clerkId args) H) as Hsame.
  eexists. split; [apply (endSession_active _ _ _ _ Hs); reflexivity|].
  assert (Hnone : sessions_by_active (user_id user)
                    {| users := users db1;
                       usageSessions := patch_in session_id sid (patch_ended now')
                                          (usageSessions db1) |} = []).
  { unfold sessions_by_active. simpl.
    apply (none_active_after_end _ _ _ _ _ Hact). reflexivity. }
  assert (Hfirst : hd_error (users_by_clerk_id (arg_clerkId args)
                    {| users := users db1;
                       usageSessions := patch_in session_id sid (patch_ended now')
                                          (usageSessions db1) |}) = Some user).
  { unfold users_by_clerk_id in *. simpl. rewrite Hsame. exact Hu. }
  split; [|split].
  - unfold getActiveSession. rewrite Hfirst, Hnone. reflexivity.
  - unfold credits_held. simpl. rewrite Husers. reflexivity.
  - unfold incrementSessionCredits, bind, first, gets.
    rewrite Hfirst, Hnone. reflexivity.
Qed.

Lemma session_round_trip_witness :
  exists db2,
    endSession 1%nat 3000 (state_of (startSession Scenario.args_en_sv 2000 (Scenario.db_new 5)))
    = Returned (Some {| final_creditsUsed := 0; duration := (3000 - 2000)%Z |}) db2
    /\ getActiveSession "user_a" db2 = None
    /\ credits_held db2 = credits_held (Scenario.db_new 5)
    /\ incrementSessionCredits "user_a" 4000 db2
       = Threw "No active session found" db2.
Proof.
  apply (session_round_trip Scenario.args_en_sv 2000 3000 4000
           (Scenario.db_new 5) 1%nat).
  reflexivity.
Defined.

Lemma startSession_threw (args : StartArgs) (now : Z) (db : Db) (msg : string) (db' : Db) :
  startSession args now db = Threw msg db' -> db' = db.
Proof.
  unfold startSession, bind, first, collect, gets.
  destruct (hd_error (users_by_clerk_id (arg_clerkId args) db)) as [user|].
  - destruct (Qle_bool (credits user) 0).
    + unfold throw. congruence.
    + rewrite for_each_patch_ended. unfold insert_session, ret. simpl. discriminate.
  - unfold throw. congruence.
Qed.

(** What a heartbeat that returns has done. *)
Lemma incrementSessionCredits_returned
    (clerk : string) (now : Z) (db : Db) (r : IncrementResult) (db' : Db) :
  incrementSessionCredits clerk now db = Returned r db' ->
  exists user activeSession,
    hd_error (users_by_clerk_id clerk db) = Some user
    /\ hd_error (sessions_by_active (user_id user) db) = Some activeSession
    /\ 0 < credits user
    /\ r = {| creditsRemaining := credits user - 1;
              sessionCreditsUsed := creditsUsed activeSession + 1 |}
    /\ db' = {| users := patch_in user_id (user_id user)
                           (patch_credits (credits user - 1) now) (users db);
                usageSessions := patch_in session_id (session_id activeSession)
                                   (patch_creditsUsed (creditsUsed activeSession + 1))
                                   (usageSessions db) |}.
Proof.
  unfold incrementSessionCredits, bind, first, gets.
  destruct (hd_error (users_by_clerk_id clerk db)) as [user|] eqn:Hu; [|discriminate].
  destruct (hd_error (sessions_by_active (user_id user) db)) as [s|] eqn:Hs;
    [|discriminate].
  destruct (Qle_bool (credits user) 0) eqn:Hc; [discriminate|].
  unfold patch_user, patch_session, modify, ret. simpl.
  intros H. injection H as <- <-. exists user, s.
  split; [reflexivity|]. split; [exact Hs|]. split; [|split; reflexivity].
  apply Qnot_le_lt. intros Hle. apply Qle_bool_iff in Hle. congruence.
Qed.

(** What a heartbeat that throws leaves behind. *)
Lemma incrementSessionCredits_threw
    (clerk : string) (now : Z) (db : Db) (msg : string) (db' : Db) :
  incrementSessionCredits clerk now db = Threw msg db' ->
  users db' = users db
  /\ map session_id (usageSessions db') = map session_id (usageSessions db)
  /\ map creditsUsed (usageSessions db') = map creditsUsed (usageSessions db).
Proof.
  unfold incrementSessionCredits, bind, first, gets.
  destruct (hd_error (users_by_clerk_id clerk db)) as [user|];
    [|unfold throw; intros H; injection H as _ <-; auto].
  destruct (hd_error (sessions_by_active (user_id user) db)) as [s|];
    [|unfold throw; intros H; injection H as _ <-; auto].
  destruct (Qle_bool (credits user) 0); [|discriminate].
  unfold patch_session, modify, throw. intros H. injection H as _ <-. simpl.
  split; [reflexivity|]. split.
  - apply map_key_patch_in. reflexivity.
  - unfold patch_in. rewrite map_map. apply map_ext. intros d.
    destruct (Nat.eqb (session_id d) (session_id s)); reflexivity.
Qed.

Lemma endSession_state (sessionId : Id) (now : Z) (db : Db) :
  state_of (endSession sessionId now db) = db
  \/ state_of (endSession sessionId now db)
     = {| users := users db;
          usageSessions := patch_in session_id sessionId (patch_ended now)
                             (usageSessions db) |}.
Proof.
  unfold endSession, bind, get_session, gets.
  destruct (session_of sessionId db) as [s|]; [|left; reflexivity].
  destruct (isActive s); [right|left]; reflexivity.
Qed.

Lemma Qsum_app (l l' : list Q) : Qsum (l ++ l') == Qsum l + Qsum l'.
Proof.
  induction l as [|x l IH]; simpl.
  - ring.
  - rewrite IH. ring.
Qed.

Lemma patch_in_absent {A} (key : A -> Id) (id : Id) (f : A -> A) (l : list A) :
  (forall x, In x l -> key x <> id) -> patch_in key id f l = l.
Proof.
  intros H. unfold patch_in. rewrite <- (map_id l) at 2.
  apply map_ext_in. intros x Hx.
  destruct (Nat.eqb_spec (key x) id) as [E|E]; [|reflexivity].
  exfalso. exact (H x Hx E).
Qed.

Lemma Qsum_patch_in {A} (key : A -> Id) (f : A -> Q) (g : A -> A) (l : list A) (d : A) :
  NoDup (map key l) -> In d l ->
  Qsum (map f (patch_in key (key d) g l)) == Qsum (map f l) + (f (g d) - f d).
Proof.
  induction l as [|a l IH]; intros Hnd Hin; [destruct Hin|].
  simpl in Hnd. inversion Hnd as [|? ? Hnotin Hnd']; subst.
  simpl. destruct (Nat.eqb_spec (key a) (key d)) as [E|E].
  - assert (Had : a = d).
    { destruct Hin as [H|H]; [exact H|].
      exfalso. apply Hnotin. rewrite E. apply in_map. exact H. }
    subst a. fold (patch_in key (key d) g l).
    rewrite patch_in_absent.
    + ring.
    + intros x Hx Ex. apply Hnotin. rewrite <- Ex. apply in_map. exact Hx.
  - destruct Hin as [H|H]; [congruence|].
    fold (patch_in key (key d) g l). rewrite (IH Hnd' H). ring.
Qed.

(** X5: the books balance.  With unique ids and whole-number balances
    and usage (the range in which the [- 1] and [+ 1] of the mutation are
    exact), a heartbeat that returns takes exactly one credit from the
    users' balances and adds exactly one to the sessions' usage; a
    heartbeat that throws, [startSession] and [endSession] change neither
    sum. *)
Theorem credits_accounting (db : Db) :
  ids_unique db ->
  whole_books db ->
  (forall clerk now r db',
     incrementSessionCredits clerk now db = Returned r db' ->
     credits_held db' == credits_held db - 1
     /\ credits_spent db' == credits_spent db + 1)
  /\ (forall clerk now msg db',
     incrementSessionCredits clerk now db = Threw msg db' ->
     credits_held db' = credits_held db /\ credits_spent db' = credits_spent db)
  /\ (forall args now,
     credits_held (state_of (startSession args now db)) = credits_held db
     /\ credits_spent (state_of (startSession args now db)) == credits_spent db)
  /\ (forall sessionId now,
     credits_held (state_of (endSession sessionId now db)) = credits_held db
     /\ credits_spent (state_of (endSession sessionId now db)) = credits_spent db).
Proof.
  intros [Hu Hs] _. split; [|split; [|split]].
  - intros clerk now r db' E.
    destruct (incrementSessionCredits_returned _ _ _ _ _ E)
      as (user & s & Huser & Hsess & _ & _ & ->).
    apply hd_error_filter in Huser. apply hd_error_filter in Hsess.
    unfold credits_held, credits_spent. simpl. split.
    + rewrite (Qsum_patch_in user_id credits _ _ user Hu (proj1 Huser)). simpl. ring.
    + rewrite (Qsum_patch_in session_id creditsUsed _ _ s Hs (proj1 Hsess)). simpl. ring.
  - intros clerk now msg db' E.
    destruct (incrementSessionCredits_threw _ _ _ _ _ E) as (Hus & _ & Hcu).
    unfold credits_held, credits_spent. rewrite Hus, Hcu. split; reflexivity.
  - intros args now.
    destruct (startSession args now db) as [sid db'|msg db'] eqn:E; simpl.
    + destruct (startSession_returned _ _ _ _ _ E) as (user & _ & _ & Ht & Husers).
      unfold credits_held, credits_spent. rewrite Husers, Ht. split; [reflexivity|].
      rewrite map_app, Qsum_app, map_map.
      rewrite (map_ext _ creditsUsed) by (intros d; apply ended_if_creditsUsed).
      simpl. ring.
    + rewrite (startSession_threw _ _ _ _ _ E). split; reflexivity.
  - intros sessionId now. destruct (endSession_state sessionId now db) as [->| ->].
    + split; reflexivity.
    + unfold credits_held, credits_spent. simpl. split; [reflexivity|].
      f_equal. unfold patch_in. rewrite map_map. apply map_ext. intros d.
      destruct (Nat.eqb (session_id d) sessionId); reflexivity.
Qed.

Lemma whole_books_example :
  whole_books (Scenario.db_with 5 [Scenario.session_en_sv 4%nat true]).
Proof.
  split; [|split].
  - intros u [<-|[]]. exists 5%Z. split; [lia|reflexivity].
  - intros s [<-|[]]. exists 0%Z. split; [lia|reflexivity].
  - vm_compute. discriminate.
Qed.

Lemma credits_accounting_witness :
  credits_held (state_of (incrementSessionCredits "user_a" 2000
                            (Scenario.db_with 5 [Scenario.session_en_sv 4%nat true])))
  == credits_held (Scenario.db_with 5 [Scenario.session_en_sv 4%nat true]) - 1
  /\ credits_spent (state_of (incrementSessionCredits "user_a" 2000
                            (Scenario.db_with 5 [Scenario.session_en_sv 4%nat true])))
     == credits_spent (Scenario.db_with 5 [Scenario.session_en_sv 4%nat true]) + 1.
Proof.
  assert (Hwf : ids_unique (Scenario.db_with 5 [Scenario.session_en_sv 4%nat true])).
  { split; simpl; repeat constructor; intros []. }
  eapply (proj1 (credits_accounting _ Hwf whole_books_example) "user_a"%string 2000%Z).
  reflexivity.
Defined.

Lemma filter_patch_in {A} (p : A -> bool) (key : A -> Id) (id : Id) (f : A -> A)
    (l : list A) :
  (forall d, p (f d) = p d) ->
  filter p (patch_in key id f l) = patch_in key id f (filter p l).
Proof.
  intros Hp. induction l as [|a l IH]; simpl; [reflexivity|].
  destruct (Nat.eqb (key a) id) eqn:E.
  - rewrite Hp. destruct (p a); simpl; [rewrite E|]; rewrite IH; reflexivity.
  - destruct (p a); simpl; [rewrite E|]; rewrite IH; reflexivity.
Qed.

Lemma NoDup_map_filter {A} (key : A -> Id) (p : A -> bool) (l : list A) :
  NoDup (map key l) -> NoDup (map key (filter p l)).
Proof.
  induction l as [|a l IH]; simpl; intros H; [constructor|].
  inversion H as [|? ? Hnotin Hnd]; subst.
  destruct (p a); simpl; [|apply IH; exact Hnd].
  constructor; [|apply IH; exact Hnd].
  intros Hin. apply Hnotin. apply in_map_iff in Hin.
  destruct Hin as (x & Hx & Hf). apply filter_In in Hf.
  apply in_map_iff. exists x. split; [exact Hx | apply Hf].
Qed.

Lemma same_key_same_doc {A} (key : A -> Id) (l : list A) (x y : A) :
  NoDup (map key l) -> In x l -> In y l -> key x = key y -> x = y.
Proof.
  induction l as [|a l IH]; simpl; intros Hnd Hx Hy E; [destruct Hx|].
  inversion Hnd as [|? ? Hnotin Hnd']; subst.
  destruct Hx as [<-|Hx], Hy as [<-|Hy].
  - reflexivity.
  - exfalso. apply Hnotin. rewrite E. apply in_map. exact Hy.
  - exfalso. apply Hnotin. rewrite <- E. apply in_map. exact Hx.
  - apply IH; assumption.
Qed.

Lemma fold_left_Qsum {A} (f : A -> Q) (l : list A) (a : Q) :
  fold_left (fun sum x => sum + f x) l a == a + Qsum (map f l).
Proof.
  revert a. induction l as [|x l IH]; intros a; simpl.
  - ring.
  - rewrite IH. ring.
Qed.

Lemma hd_error_patch_in {A} (key : A -> Id) (f : A -> A) (l : list A) (d : A) :
  hd_error l = Some d -> hd_error (patch_in key (key d) f l) = Some (f d).
Proof.
  destruct l as [|a l]; simpl; [discriminate|].
  intros H. injection H as ->. rewrite Nat.eqb_refl. reflexivity.
Qed.

(** X6: a heartbeat that returns shows in the day's usage at once:
    with unique ids and whole-number usage (the range in which the
    [+ 1] of the mutation and the sum of the query are exact),
    [getCreditsUsedToday] grows by exactly one when the charged session
    started today, and does not move when it started before today's
    midnight. *)
Theorem heartbeat_counts_today
    (clerk : string) (now todayStartTime : Z) (db : Db) (r : IncrementResult) (db' : Db) :
  ids_unique db ->
  whole_books db ->
  incrementSessionCredits clerk now db = Returned r db' ->
  exists activeSession,
    getActiveSession clerk db = Some activeSession
    /\ getCreditsUsedToday clerk todayStartTime db'
       == getCreditsUsedToday clerk todayStartTime db
          + (if Z.leb todayStartTime (startedAt activeSession) then 1 else 0).
Proof.
  intros [_ Hs] _ E.
  destruct (incrementSessionCredits_returned _ _ _ _ _ E)
    as (user & s & Huser & Hsess & _ & _ & ->).
  exists s. split.
  { unfold getActiveSession. rewrite Huser. exact Hsess. }
  unfold getCreditsUsedToday.
  assert (Hfirst : hd_error (users_by_clerk_id clerk
             {| users := patch_in user_id (user_id user)
                           (patch_credits (credits user - 1) now) (users db);
                usageSessions := patch_in session_id (session_id s)
                                   (patch_creditsUsed (creditsUsed s + 1))
                                   (usageSessions db) |})
           = Some (patch_credits (credits user - 1) now user)).
  { unfold users_by_clerk_id in *. simpl.
    rewrite filter_patch_in by reflexivity.
    apply hd_error_patch_in. exact Huser. }
  rewrite Hfirst, Huser. simpl user_id.
  unfold sessions_by_user. simpl usageSessions.
  rewrite !filter_patch_in by reflexivity.
  rewrite !fold_left_Qsum.
  set (today := filter (fun session => Z.leb todayStartTime (startedAt session))
                  (filter (fun s0 => Nat.eqb (userId s0) (user_id user))
                     (usageSessions db))).
  apply hd_error_filter in Hsess. destruct Hsess as [Hin Hact].
  unfold is_active_of in Hact. apply andb_prop in Hact. destruct Hact as [Huid _].
  destruct (Z.leb todayStartTime (startedAt s)) eqn:Htoday.
  - assert (Hin' : In s today).
    { unfold today. apply filter_In. split; [|exact Htoday].
      apply filter_In. split; assumption. }
    rewrite (Qsum_patch_in session_id creditsUsed _ today s); [simpl; ring | | exact Hin'].
    unfold today. apply NoDup_map_filter, NoDup_map_filter. exact Hs.
  - rewrite patch_in_absent; [ring|].
    intros x Hx Ex. unfold today in Hx.
    apply filter_In in Hx. destruct Hx as [Hx Hxt].
    apply filter_In in Hx. destruct Hx as [Hx _].
    assert (x = s) by (eapply same_key_same_doc; eassumption).
    subst x. congruence.
Qed.

Lemma heartbeat_counts_today_witness :
  exists activeSession,
    getActiveSession "user_a" (Scenario.db_with 5 [Scenario.session_en_sv 4%nat true])
      = Some activeSession
    /\ getCreditsUsedToday "user_a" 100
         (state_of (incrementSessionCredits "user_a" 2000
                      (Scenario.db_with 5 [Scenario.session_en_sv 4%nat true])))
       == getCreditsUsedToday "user_a" 100
            (Scenario.db_with 5 [Scenario.session_en_sv 4%nat true])
          + (if Z.leb 100 (startedAt activeSession) then 1 else 0).
Proof.
  apply (heartbeat_counts_today "user_a" 2000 100
           (Scenario.db_with 5 [Scenario.session_en_sv 4%nat true])
           {| creditsRemaining := 5 - 1; sessionCreditsUsed := 0 + 1 |}).
  - split; simpl; repeat constructor; intros [].
  - exact whole_books_example.
  - reflexivity.
Defined.



End LedgerMore.

(** * Further properties of the usage-tracking hook *)

Section HookMore.

Import Hook.
Local Open Scope Q_scope.

Lemma filter_fresh_timer (ts : list (TimerId * Closure)) (n : TimerId) (env : Closure) :
  Forall (fun k => (k <= n)%nat) (map fst ts) ->
  filter (fun p => negb (Nat.eqb (fst p) (S n))) (ts ++ [(S n, env)]) = ts.
Proof.
  induction ts as [|[a c] ts IH]; simpl; intros H.
  - rewrite Nat.eqb_refl. reflexivity.
  - inversion H as [|? ? Ha Hts]; subst.
    replace (Nat.eqb a (S n)) with false by (symmetry; apply Nat.eqb_neq; lia).
    simpl. rewrite IH by exact Hts. reflexivity.
Qed.

Lemma timers_below_max (ts : list (TimerId * Closure)) :
  Forall (fun k => (k <= list_max (map fst ts))%nat) (map fst ts).
Proof. apply list_max_le. apply Nat.le_refl. Qed.

(** The world a successful [startTracking] of the per-minute hook leaves. *)
Lemma PerMinute_startTracking_world
    (env : Closure) (languageFrom languageTo : string) (w : World)
    (sid : Ledger.Id) (w1 : World) :
  PerMinute.startTracking env languageFrom languageTo w = Returned sid w1 ->
  exists clerk db',
    clerkUser_id env = Some clerk
    /\ Ledger.startSession {| Ledger.arg_clerkId := clerk;
                              Ledger.arg_languageFrom := languageFrom;
                              Ledger.arg_languageTo := languageTo |}
         (clock w) (ledger w) = Returned sid db'
    /\ w1 = {| react := {| sessionId := Some sid; isTracking := true;
                           sessionCreditsUsed := 0;
                           sessionSecondsUsed := sessionSecondsUsed (react w) |};
               intervalRef := Some (S (list_max (map fst (timers w))));
               startTimeRef := startTimeRef w;
               timers := timers w ++ [(S (list_max (map fst (timers w))), env)];
               ledger := db';
               calls := calls w ++ [CallStartSession
                                      {| Ledger.arg_clerkId := clerk;
                                         Ledger.arg_languageFrom := languageFrom;
                                         Ledger.arg_languageTo := languageTo |}];
               clock := clock w |}.
Proof.
  unfold PerMinute.startTracking.
  destruct (clerkUser_id env) as [clerk|]; [|discriminate].
  unfold try_catch, bind, call.
  destruct (Ledger.startSession _ (clock w) (ledger w)) as [s db'|msg db'] eqn:E;
    simpl; [|discriminate].
  intros H. injection H as <- <-. exists clerk, db'. auto.
Qed.

(** X9: a [startTracking] that fails leaves the hook as it was: no
    interval is registered, the ref and the state variables are
    untouched and the ledger holds what it held.  Without a signed-in
    user the error is 'User not authenticated' and nothing was sent;
    otherwise it is the error of [startSession], thrown again. *)
Theorem startTracking_failure
    (env : Closure) (languageFrom languageTo : string) (w : World)
    (msg : string) (w' : World) :
  PerMinute.startTracking env languageFrom languageTo w = Threw msg w' ->
  timers w' = timers w
  /\ intervalRef w' = intervalRef w
  /\ react w' = react w
  /\ ledger w' = ledger w
  /\ match clerkUser_id env with
     | None => msg = "User not authenticated"%string /\ calls w' = calls w
     | Some clerk =>
         exists db',
           Ledger.startSession {| Ledger.arg_clerkId := clerk;
                                  Ledger.arg_languageFrom := languageFrom;
                                  Ledger.arg_languageTo := languageTo |}
             (clock w) (ledger w) = Threw msg db'
           /\ calls w' = calls w ++ [CallStartSession
                                       {| Ledger.arg_clerkId := clerk;
                                          Ledger.arg_languageFrom := languageFrom;
                                          Ledger.arg_languageTo := languageTo |}]
     end.
Proof.
  unfold PerMinute.startTracking.
  destruct (clerkUser_id env) as [clerk|].
  - unfold try_catch, bind, call.
    destruct (Ledger.startSession _ (clock w) (ledger w)) as [s db'|msg' db'] eqn:E;
      simpl; [discriminate|].
    unfold throw. intros H. injection H as <- <-. simpl.
    repeat (split; [reflexivity|]). exists db'. split; reflexivity.
  - unfold throw. intros H. injection H as <- <-. auto 10.
Qed.

Lemma startTracking_failure_witness :
  timers (state_of (PerMinute.startTracking (render Scenario.clerk
            (Scenario.mounted (Scenario.db_new 0))) "en" "sv"
            (Scenario.mounted (Scenario.db_new 0))))
  = timers (Scenario.mounted (Scenario.db_new 0))
  /\ intervalRef (state_of (PerMinute.startTracking (render Scenario.clerk
            (Scenario.mounted (Scenario.db_new 0))) "en" "sv"
            (Scenario.mounted (Scenario.db_new 0))))
     = intervalRef (Scenario.mounted (Scenario.db_new 0))
  /\ react (state_of (PerMinute.startTracking (render Scenario.clerk
            (Scenario.mounted (Scenario.db_new 0))) "en" "sv"
            (Scenario.mounted (Scenario.db_new 0))))
     = react (Scenario.mounted (Scenario.db_new 0))
  /\ ledger (state_of (PerMinute.startTracking (render Scenario.clerk
            (Scenario.mounted (Scenario.db_new 0))) "en" "sv"
            (Scenario.mounted (Scenario.db_new 0))))
     = ledger (Scenario.mounted (Scenario.db_new 0))
  /\ exists db',
       Ledger.startSession Scenario.args_en_sv 1000 (Scenario.db_new 0)
       = Threw "Insufficient credits" db'
       /\ calls (state_of (PerMinute.startTracking (render Scenario.clerk
            (Scenario.mounted (Scenario.db_new 0))) "en" "sv"
            (Scenario.mounted (Scenario.db_new 0))))
          = [CallStartSession Scenario.args_en_sv].
Proof.
  apply (startTracking_failure
           (render Scenario.clerk (Scenario.mounted (Scenario.db_new 0)))
           "en" "sv" (Scenario.mounted (Scenario.db_new 0))
           "Insufficient credits").
  reflexivity.
Defined.

(** X10: stop pressed while tracking does what it is meant to: pressed in
    a render that has seen the session, [stopTracking] sends [endSession]
    for it once, the user has no active session afterwards, the interval
    that [startTracking] registered is gone and the state is reset; stop
    pressed once more sends nothing. *)
Theorem stop_while_tracking
    (clerk languageFrom languageTo : string) (w : World) (sid : Ledger.Id) (w1 : World) :
  PerMinute.startTracking (render (Some clerk) w) languageFrom languageTo w
    = Returned sid w1 ->
  exists w2,
    PerMinute.stopTracking (render (Some clerk) w1) w1 = Returned tt w2
    /\ calls w2 = calls w1 ++ [CallEndSession sid]
    /\ Ledger.getActiveSession clerk (ledger w2) = None
    /\ timers w2 = timers w
    /\ intervalRef w2 = None
    /\ isTracking (react w2) = false
    /\ sessionId (react w2) = None
    /\ calls (state_of (PerMinute.stopTracking (render (Some clerk) w2) w2)) = calls w2.
Proof.
  intros Hstart.
  destruct (PerMinute_startTracking_world _ _ _ _ _ _ Hstart)
    as (clerk' & db' & Hclerk & Hledger & ->).
  clear Hstart. simpl in Hclerk. injection Hclerk as <-.
  destruct (startSession_returned _ _ _ _ _ Hledger) as (user & Hu & _ & _ & _).
  pose proof (startSession_session_of _ _ _ _ _ _ Hledger Hu) as Hs.
  pose proof (startSession_active_after _ _ _ _ _ _ Hledger Hu) as Hact.
  pose proof (startSession_same_user _ _ _ _ _ clerk Hledger) as Hsame.
  simpl in Hu, Hs, Hact, Hsame.
  set (args := {| Ledger.arg_clerkId := clerk;
                  Ledger.arg_languageFrom := languageFrom;
                  Ledger.arg_languageTo := languageTo |}) in *.
  set (db2 := {| Ledger.users := Ledger.users db';
                 Ledger.usageSessions :=
                   Ledger.patch_in Ledger.session_id sid
                     (Ledger.patch_ended (clock w)) (Ledger.usageSessions db') |}).
  exists {| react := {| sessionId := None; isTracking := false;
                        sessionCreditsUsed := 0;
                        sessionSecondsUsed := sessionSecondsUsed (react w) |};
            intervalRef := None;
            startTimeRef := startTimeRef w;
            timers := timers w;
            ledger := db2;
            calls := (calls w ++ [CallStartSession args]) ++ [CallEndSession sid];
            clock := clock w |}.
  split.
  { unfold PerMinute.stopTracking, render.
    unfold bind, gets, try_catch, call, ret, clearInterval, setIsTracking,
      setSessionId, setSessionCreditsUsed, modify.
    unfold with_react, with_ledger, with_intervalRef, with_timers.
    cbn [react intervalRef sessionId captured_sessionId timers ledger clock calls
         startTimeRef isTracking sessionCreditsUsed sessionSecondsUsed].
    rewrite (endSession_active _ _ _ _ Hs) by reflexivity.
    cbn [react intervalRef sessionId captured_sessionId timers ledger clock calls
         startTimeRef isTracking sessionCreditsUsed sessionSecondsUsed].
    rewrite filter_fresh_timer by apply timers_below_max.
    reflexivity. }
  cbn [react intervalRef sessionId timers ledger calls isTracking].
  split; [reflexivity|]. split.
  { unfold Ledger.getActiveSession, Ledger.users_by_clerk_id in *.
    unfold db2. cbn [Ledger.users]. rewrite Hsame, Hu.
    unfold Ledger.sessions_by_active in *. cbn [Ledger.usageSessions Ledger.user_id].
    rewrite (none_active_after_end _ _ _ _ _ Hact) by reflexivity. reflexivity. }
  do 4 (split; [reflexivity|]).
  match goal with
  | |- calls (state_of (PerMinute.stopTracking ?e ?x)) = _ =>
      destruct (PerMinute_stopTracking_spec e x) as (w3 & E & _ & _ & _ & Hcalls)
  end.
  rewrite E. cbn [state_of]. rewrite Hcalls. apply app_nil_r.
Qed.

Lemma stop_while_tracking_witness :
  exists w2,
    PerMinute.stopTracking
      (render (Some "user_a"%string)
         (Scenario.press_start (Scenario.mounted (Scenario.db_new 5))))
      (Scenario.press_start (Scenario.mounted (Scenario.db_new 5))) = Returned tt w2
    /\ calls w2 = calls (Scenario.press_start (Scenario.mounted (Scenario.db_new 5)))
                  ++ [CallEndSession 1%nat]
    /\ Ledger.getActiveSession "user_a" (ledger w2) = None
    /\ timers w2 = timers (Scenario.mounted (Scenario.db_new 5))
    /\ intervalRef w2 = None
    /\ isTracking (react w2) = false
    /\ sessionId (react w2) = None
    /\ calls (state_of (PerMinute.stopTracking (render (Some "user_a"%string) w2) w2))
       = calls w2.
Proof.
  apply (stop_while_tracking "user_a" "en" "sv"
           (Scenario.mounted (Scenario.db_new 5)) 1%nat).
  reflexivity.
Defined.

(** X11: unmounting while tracking stops the heartbeats and nothing
    else: the interval [startTracking] registered is cleared, no mutation
    is sent, and the session stays the user's active session in the
    ledger. *)
Theorem unmount_while_tracking
    (clerk languageFrom languageTo : string) (w : World) (sid : Ledger.Id) (w1 : World) :
  PerMinute.startTracking (render (Some clerk) w) languageFrom languageTo w
    = Returned sid w1 ->
  exists w2,
    PerMinute.unmount w1 = Returned tt w2
    /\ timers w2 = timers w
    /\ calls w2 = calls w1
    /\ ledger w2 = ledger w1
    /\ option_map Ledger.session_id (Ledger.getActiveSession clerk (ledger w2)) = Some sid
    /\ sessionId (react w2) = Some sid.
Proof.
  intros Hstart.
  destruct (PerMinute_startTracking_world _ _ _ _ _ _ Hstart)
    as (clerk' & db' & Hclerk & Hledger & ->).
  simpl in Hclerk. injection Hclerk as <-.
  destruct (startSession_returned _ _ _ _ _ Hledger) as (user & Hu & _ & _ & _).
  pose proof (startSession_active_after _ _ _ _ _ _ Hledger Hu) as Hact.
  pose proof (startSession_same_user _ _ _ _ _ clerk Hledger) as Hsame.
  simpl in Hu, Hact, Hsame.
  unfold PerMinute.unmount, bind, gets, clearInterval, modify.
  cbn [intervalRef]. unfold with_timers. cbn [timers].
  rewrite filter_fresh_timer by apply timers_below_max.
  eexists. split; [reflexivity|].
  cbn [timers calls ledger react sessionId].
  do 3 (split; [reflexivity|]). split; [|reflexivity].
  unfold Ledger.getActiveSession. rewrite Hsame, Hu, Hact. reflexivity.
Qed.

Lemma unmount_while_tracking_witness :
  exists w2,
    PerMinute.unmount (Scenario.press_start (Scenario.mounted (Scenario.db_new 5)))
      = Returned tt w2
    /\ timers w2 = timers (Scenario.mounted (Scenario.db_new 5))
    /\ calls w2 = calls (Scenario.press_start (Scenario.mounted (Scenario.db_new 5)))
    /\ ledger w2 = ledger (Scenario.press_start (Scenario.mounted (Scenario.db_new 5)))
    /\ option_map Ledger.session_id (Ledger.getActiveSession "user_a" (ledger w2))
       = Some 1%nat
    /\ sessionId (react w2) = Some 1%nat.
Proof.
  apply (unmount_while_tracking "user_a" "en" "sv"
           (Scenario.mounted (Scenario.db_new 5)) 1%nat).
  reflexivity.
Defined.

Lemma PerMinute_stopTracking_timers (env : Closure) (w : World) :
  timers (state_of (PerMinute.stopTracking env w))
  = match intervalRef w with
    | Some t => filter (fun p => negb (Nat.eqb (fst p) t)) (timers w)
    | None => timers w
    end.
Proof.
  unfold PerMinute.stopTracking, bind, gets, try_catch, call, ret,
    clearInterval, setIsTracking, setSessionId, setSessionCreditsUsed, modify.
  destruct (intervalRef w) as [t|];
    destruct (captured_sessionId env) as [sid|]; simpl;
    try (destruct (Ledger.endSession sid (clock w) (ledger w)); simpl);
    reflexivity.
Qed.

Lemma timer_live_last (ts : list (TimerId * Closure)) (t : TimerId) (env : Closure) :
  existsb (fun p => Nat.eqb (fst p) t) (ts ++ [(t, env)]) = true.
Proof.
  rewrite existsb_app. simpl. rewrite Nat.eqb_refl. apply orb_true_iff.
  right. reflexivity.
Qed.

(** X12: [startTracking] never clears an interval.  Started a second
    time without a stop in between, the hook holds only the second
    interval in its ref; the stop that follows clears that one, and the
    first stays registered with nothing left to clear it: each time it
    fires it sends another heartbeat. *)
Theorem second_start_leaks_interval
    (clerk languageFrom languageTo : string) (w : World)
    (sid1 sid2 : Ledger.Id) (w1 w2 : World) :
  PerMinute.startTracking (render (Some clerk) w) languageFrom languageTo w
    = Returned sid1 w1 ->
  PerMinute.startTracking (render (Some clerk) w1) languageFrom languageTo w1
    = Returned sid2 w2 ->
  exists t1 t2 w3,
    intervalRef w1 = Some t1
    /\ intervalRef w2 = Some t2
    /\ t1 <> t2
    /\ PerMinute.stopTracking (render (Some clerk) w2) w2 = Returned tt w3
    /\ intervalRef w3 = None
    /\ timer_live t2 w3 = false
    /\ timer_live t1 w3 = true
    /\ forall hb, exists w4 rest,
         PerMinute.fire hb t1 w3 = Returned tt w4
         /\ calls w4 = calls w3 ++ CallIncrementSessionCredits clerk :: rest.
Proof.
  intros H1 H2.
  destruct (PerMinute_startTracking_returned _ _ _ _ _ _ H1)
    as (c1 & Hc1 & _ & _ & Hi1 & Ht1 & _).
  destruct (PerMinute_startTracking_returned _ _ _ _ _ _ H2)
    as (c2 & Hc2 & _ & _ & Hi2 & Ht2 & _).
  simpl in Hc1, Hc2. injection Hc1 as <-. injection Hc2 as <-.
  set (t1 := S (list_max (map fst (timers w)))) in *.
  set (t2 := S (list_max (map fst (timers w1)))) in *.
  assert (Hlt : (t1 < t2)%nat).
  { assert (Hin : In t1 (map fst (timers w1))).
    { rewrite Ht1, map_app. apply in_or_app. right. left. reflexivity. }
    pose proof (timers_below_max (timers w1)) as Hall.
    rewrite Forall_forall in Hall. specialize (Hall _ Hin).
    unfold t2. lia. }
  destruct (PerMinute_stopTracking_spec (render (Some clerk) w2) w2)
    as (w3 & E & Hi3 & Hlive3 & _ & _).
  pose proof (PerMinute_stopTracking_timers (render (Some clerk) w2) w2) as Htimers.
  rewrite E, Hi2, Ht2 in Htimers. cbn [state_of] in Htimers.
  unfold t2 in Htimers at 1 2.
  rewrite filter_fresh_timer in Htimers by apply timers_below_max.
  exists t1, t2, w3.
  split; [exact Hi1|]. split; [exact Hi2|]. split; [lia|].
  split; [exact E|]. split; [exact Hi3|].
  split; [apply Hlive3; exact Hi2|]. split.
  - unfold timer_live. rewrite Htimers, Ht1. apply timer_live_last.
  - intros hb.
    destruct (PerMinute_interval_callback_calls hb (render (Some clerk) w) clerk w3)
      as (w4 & rest & E4 & Hc4 & _).
    exists w4, rest. split; [|exact Hc4].
    unfold PerMinute.fire, bind, gets. rewrite Htimers, Ht1.
    unfold t1. rewrite find_fresh_timer by apply timers_below_max.
    simpl. exact E4.
Qed.

Lemma second_start_leaks_interval_witness :
  exists t1 t2 w3,
    intervalRef (Scenario.press_start (Scenario.mounted (Scenario.db_new 5))) = Some t1
    /\ intervalRef (Scenario.press_start
                      (Scenario.press_start (Scenario.mounted (Scenario.db_new 5))))
       = Some t2
    /\ t1 <> t2
    /\ PerMinute.stopTracking
         (render (Some "user_a"%string)
            (Scenario.press_start
               (Scenario.press_start (Scenario.mounted (Scenario.db_new 5)))))
         (Scenario.press_start
            (Scenario.press_start (Scenario.mounted (Scenario.db_new 5))))
       = Returned tt w3
    /\ intervalRef w3 = None
    /\ timer_live t2 w3 = false
    /\ timer_live t1 w3 = true
    /\ forall hb, exists w4 rest,
         PerMinute.fire hb t1 w3 = Returned tt w4
         /\ calls w4 = calls w3 ++ CallIncrementSessionCredits "user_a" :: rest.
Proof.
  apply (second_start_leaks_interval "user_a" "en" "sv"
           (Scenario.mounted (Scenario.db_new 5)) 1%nat 2%nat
           (Scenario.press_start (Scenario.mounted (Scenario.db_new 5)))
           (Scenario.press_start
              (Scenario.press_start (Scenario.mounted (Scenario.db_new 5)))));
    vm_compute; reflexivity.
Defined.

(** X13: the 3-second hook stops on the minimum charge: an answer with
    [creditsRemaining] at most 0.05 clears the interval and resets the
    state in the same callback, so the hook stops while up to 0.05 credits
    are left; any larger answer only updates the two counters shown and
    leaves the interval running. *)
Theorem PerSecond_stop_threshold
    (env : Closure) (result : PerSecond.FractionalResult) (w : World) :
  (PerSecond.creditsRemaining result <= 5 # 100 ->
   exists w',
     PerSecond.on_result env result w = Returned tt w'
     /\ intervalRef w' = None
     /\ (forall t, intervalRef w = Some t -> timer_live t w' = false)
     /\ react w' = {| sessionId := None; isTracking := false;
                      sessionCreditsUsed := 0; sessionSecondsUsed := 0 |}
     /\ startTimeRef w' = None)
  /\
  (5 # 100 < PerSecond.creditsRemaining result ->
   exists w',
     PerSecond.on_result env result w = Returned tt w'
     /\ intervalRef w' = intervalRef w
     /\ timers w' = timers w
     /\ calls w' = calls w
     /\ react w' = {| sessionId := sessionId (react w);
                      isTracking := isTracking (react w);
                      sessionCreditsUsed := PerSecond.sessionCreditsUsed result;
                      sessionSecondsUsed := PerSecond.secondsUsed result |}).
Proof.
  split; intros H.
  - apply Qle_bool_iff in H.
    unfold PerSecond.on_result, bind, setSessionCreditsUsed, setSessionSecondsUsed, modify.
    unfold PerSecond.MINIMUM_CHARGE. rewrite H.
    unfold PerSecond.stopTracking, bind, gets, try_catch, call, ret,
      clearInterval, setIsTracking, setSessionId, setSessionCreditsUsed,
      setSessionSecondsUsed, modify.
    destruct (intervalRef w) as [t|] eqn:Hi;
      destruct (captured_sessionId env) as [sid|]; simpl; rewrite ?Hi; simpl;
      try (destruct (Ledger.endSession sid (clock w) (ledger w)); simpl);
      eexists; (split; [reflexivity|]); simpl;
      (split; [first [reflexivity | exact Hi]|]);
      (split; [intros t' Ht'; try discriminate; injection Ht' as <-;
               unfold timer_live; simpl; apply existsb_filter_other|]);
      split; reflexivity.
  - assert (Hb : Qle_bool (PerSecond.creditsRemaining result) (5 # 100) = false).
    { destruct (Qle_bool (PerSecond.creditsRemaining result) (5 # 100)) eqn:E;
        [|reflexivity].
      apply Qle_bool_iff in E. exfalso. apply (Qlt_irrefl (5 # 100)).
      eapply Qlt_le_trans; eassumption. }
    unfold PerSecond.on_result, bind, setSessionCreditsUsed, setSessionSecondsUsed, modify.
    unfold PerSecond.MINIMUM_CHARGE. rewrite Hb.
    eexists. split; [reflexivity|]. simpl. auto.
Qed.




Lemma heartbeats_after (w w' : World) (c : LedgerCall) (rest : list LedgerCall) :
  calls w' = calls w ++ c :: rest ->
  is_heartbeat c = true ->
  Forall (fun c => is_heartbeat c = false) rest ->
  heartbeats w' = S (heartbeats w).
Proof.
  intros Hc Hh Hrest. unfold heartbeats. rewrite Hc, filter_app, length_app.
  simpl. rewrite Hh. simpl.
  rewrite (filter_none is_heartbeat rest).
  - simpl. lia.
  - rewrite Forall_forall in Hrest. exact Hrest.
Qed.






(** X15: an error of the heartbeat stops the hook.  When the mutation
    throws, whatever the reason, the callback swallows the error and runs
    [stopTracking]: the interval is cleared, the state is reset, and the
    callback itself returns. *)
Theorem heartbeat_error_stops
    (hb : string -> Z -> M Ledger.Db Ledger.IncrementResult)
    (env : Closure) (clerk : string) (w : World) (msg : string) (db' : Ledger.Db) :
  hb clerk (clock w) (ledger w) = Threw msg db' ->
  exists w',
    PerMinute.interval_callback hb env clerk w = Returned tt w'
    /\ intervalRef w' = None
    /\ (forall t, intervalRef w = Some t -> timer_live t w' = false)
    /\ isTracking (react w') = false
    /\ sessionId (react w') = None
    /\ heartbeats w' = S (heartbeats w).
Proof.
  intros H. unfold PerMinute.interval_callback, try_catch, bind, call. rewrite H.
  match goal with
  | |- context [PerMinute.stopTracking env ?x] =>
      destruct (PerMinute_stopTracking_spec env x) as (w' & E & Hi & Ht & Hr & Hc)
  end.
  exists w'. split; [exact E|]. split; [exact Hi|]. split; [exact Ht|].
  rewrite Hr. split; [reflexivity|]. split; [reflexivity|].
  eapply (heartbeats_after w w' (CallIncrementSessionCredits clerk)
            match captured_sessionId env with
            | Some sid => [CallEndSession sid]
            | None => []
            end).
  - rewrite Hc. cbn [calls with_ledger]. rewrite <- app_assoc. reflexivity.
  - reflexivity.
  - destruct (captured_sessionId env); repeat constructor.
Qed.

Lemma heartbeat_error_stops_witness :
  exists w',
    PerMinute.interval_callback PerMinute.heartbeat
      {| clerkUser_id := Some "user_a"%string; captured_sessionId := None |}
      "user_a"
      (state_of (Hook.elsewhere (Ledger.endSession 1%nat)
                   (Scenario.press_start (Scenario.mounted (Scenario.db_new 5)))))
    = Returned tt w'
    /\ intervalRef w' = None
    /\ (forall t,
          intervalRef (state_of (Hook.elsewhere (Ledger.endSession 1%nat)
                         (Scenario.press_start (Scenario.mounted (Scenario.db_new 5)))))
          = Some t -> timer_live t w' = false)
    /\ isTracking (react w') = false
    /\ sessionId (react w') = None
    /\ heartbeats w'
       = S (heartbeats (state_of (Hook.elsewhere (Ledger.endSession 1%nat)
                          (Scenario.press_start (Scenario.mounted (Scenario.db_new 5)))))).
Proof.
  eapply (heartbeat_error_stops PerMinute.heartbeat
            {| clerkUser_id := Some "user_a"%string; captured_sessionId := None |}
            "user_a"
            (state_of (Hook.elsewhere (Ledger.endSession 1%nat)
                         (Scenario.press_start (Scenario.mounted (Scenario.db_new 5)))))
            "No active session found").
  vm_compute. reflexivity.
Defined.

End HookMore.

(** * Further properties of the audio visualizer *)

Section VisualizerMore.

Import AudioVisualizer.
Local Open Scope Q_scope.

Lemma div_160 (x : Q) : x / 160 == x * (1 # 160).
Proof. unfold Qdiv. reflexivity. Qed.

Lemma normalizedLevel_bounds (level : Q) :
  0 <= normalizedLevel level
  /\ normalizedLevel level <= 1
  /\ (isSpeaking level = true -> 3 # 4 <= normalizedLevel level).
Proof.
  unfold normalizedLevel. split; [apply Q.le_max_l|]. split.
  - apply Q.max_lub; [unfold Qle; simpl; lia | apply Q.le_min_l].
  - intros H. apply Qgt_bool_iff in H. unfold SPEECH_THRESHOLD in H.
    eapply Qle_trans; [|apply Q.le_max_r].
    apply Q.min_glb; [unfold Qle; simpl; lia|]. rewrite div_160. lra.
Qed.

(** X16: the normalized level is a fraction of the range from -160 dB to
    0 dB: it lies between 0 and 1, is 0 at and below -160 dB, 1 at and
    above 0 dB, [(level + 160) / 160] in between, never decreases when the
    level rises, and is at least 3/4 whenever speech is detected.  The
    bounds are not strict: just above the threshold the quotient, once
    rounded, is 3/4 itself. *)
Theorem normalizedLevel_range (level : Q) :
  0 <= normalizedLevel level <= 1
  /\ (level <= -160 -> normalizedLevel level == 0)
  /\ (0 <= level -> normalizedLevel level == 1)
  /\ (-160 <= level <= 0 -> normalizedLevel level == (level + 160) / 160)
  /\ (forall level', level <= level' -> normalizedLevel level <= normalizedLevel level')
  /\ (isSpeaking level = true -> 3 # 4 <= normalizedLevel level).
Proof.
  unfold normalizedLevel. split; [|split; [|split; [|split; [|split]]]].
  - split; [apply Q.le_max_l|].
    apply Q.max_lub; [unfold Qle; simpl; lia | apply Q.le_min_l].
  - intros H. apply Q.max_l.
    eapply Qle_trans; [apply Q.le_min_r|]. rewrite div_160. lra.
  - intros H. rewrite Q.min_l by (rewrite div_160; lra).
    apply Q.max_r. unfold Qle; simpl; lia.
  - intros [H1 H2]. rewrite Q.min_r by (rewrite div_160; lra).
    apply Q.max_r. rewrite div_160. lra.
  - intros level' H. apply Q.max_le_compat_l, Q.min_le_compat_l.
    rewrite !div_160. lra.
  - intros H. apply Qgt_bool_iff in H. unfold SPEECH_THRESHOLD in H.
    eapply Qle_trans; [|apply Q.le_max_r].
    apply Q.min_glb; [unfold Qle; simpl; lia|]. rewrite div_160. lra.
Qed.

Lemma distance_range (index : nat) :
  (index < NUM_DOTS)%nat -> 0 <= distance index <= 6.
Proof.
  intros H. unfold NUM_DOTS in H. unfold distance, centerIndex, NUM_DOTS.
  change (13 / 2)%nat with 6%nat.
  change 0 with (inject_Z 0). change 6 with (inject_Z 6).
  split; rewrite <- Zle_Qle; lia.
Qed.

(** X17: the wave started on a dot while speech is detected: after a
    delay of at most 180 ms the dot swells to a scale between 1 and 3 and
    comes back to rest at 1; the wave is the same on the two dots at equal
    distance from the centre, and whenever the level is above the speech
    threshold every dot swells beyond 1.5 and the centre dot to 2.5 at
    least. *)
Theorem wave_shape (level : Q) (index : nat) :
  (index < NUM_DOTS)%nat ->
  exists delay peak,
    wave level index = [Delay delay; Timing peak 100; Timing 1 200]
    /\ 0 <= delay <= 180
    /\ 1 <= peak <= 3
    /\ (isSpeaking level = true -> 3 # 2 < peak)
    /\ (isSpeaking level = true -> index = centerIndex -> 5 # 2 <= peak)
    /\ settles_at (wave level index) == 1
    /\ wave level (12 - index) = wave level index.
Proof.
  intros H.
  destruct (distance_range index H) as [Hd0 Hd6].
  destruct (normalizedLevel_bounds level) as (Hn0 & Hn1 & Hsp).
  unfold wave. eexists. eexists. split; [reflexivity|].
  set (d := distance index) in *. set (W := normalizedLevel level) in *.
  split; [split; lra|]. split; [split; nra|]. split; [intros Hs; specialize (Hsp Hs); nra|].
  split.
  { intros Hs Hi. specialize (Hsp Hs).
    assert (Hd : d == 0) by (subst d index; reflexivity).
    rewrite Hd. lra. }
  split; [reflexivity|].
  assert (Hsym : distance (12 - index) = distance index).
  { unfold distance, centerIndex, NUM_DOTS. change (13 / 2)%nat with 6%nat.
    unfold NUM_DOTS in H. f_equal. lia. }
  subst d. rewrite Hsym. reflexivity.
Qed.

Lemma wave_shape_witness :
  exists delay peak,
    wave (-30) 3 = [Delay delay; Timing peak 100; Timing 1 200]
    /\ 0 <= delay <= 180
    /\ 1 <= peak <= 3
    /\ (isSpeaking (-30) = true -> 3 # 2 < peak)
    /\ (isSpeaking (-30) = true -> 3%nat = centerIndex -> 5 # 2 <= peak)
    /\ settles_at (wave (-30) 3) == 1
    /\ wave (-30) (12 - 3) = wave (-30) 3.
Proof.
  apply (wave_shape (-30) 3). unfold NUM_DOTS. lia.
Defined.

(** The world [startMonitoring] leaves on a device that grants the
    microphone, rejects no call and holds no prepared recorder. *)
Lemma startMonitoring_cooperative (env : Closure) (w : World) :
  permission_granted w = true ->
  rejecting w = [] ->
  recorderExists w = false ->
  startMonitoring env w
  = Returned tt
      {| permission_granted := true; rejecting := []; metering := metering w;
         audioMode := Some monitoringAudioMode;
         recorders := recorders w ++ [{| prepared_with := Some recordingOptions;
                                         recorder_state := Running |}];
         recording := Some (List.length (recorders w));
         intervalRef := Some (S (list_max (map fst (timers w))));
         timers := timers w ++ [(S (list_max (map fst (timers w))),
                                 (env, List.length (recorders w)))];
         dots := dots w; reported := reported w; clock := clock w |}.
Proof.
  intros Hp Hr He. destruct w as [pg rej met am recs rec iref ts ds rep clk].
  unfold recorderExists in He. simpl in Hp, Hr, He. subst pg rej.
  unfold startMonitoring, requestPermissionsAsync, setAudioModeAsync,
    prepareToRecordAsync, startAsync, newRecording, setInterval, native.
  unfold try_catch, bind, gets, modify, ret, recorderExists.
  unfold recorder_at, with_intervalRef, with_timers, with_recording,
    with_recorders, with_audioMode.
  cbn [existsb negb permission_granted rejecting metering audioMode recorders
       recording intervalRef timers dots reported clock].
  rewrite (recorderExists_new recs He).
  cbn [existsb negb permission_granted rejecting metering audioMode recorders
       recording intervalRef timers dots reported clock].
  rewrite !set_recorder_last. rewrite !nth_middle.
  reflexivity.
Qed.

(** While a recorder is prepared, [startMonitoring] starts nothing: the
    new recording object is created, its preparation throws, and the
    error is caught. *)
Lemma startMonitoring_blocked (env : Closure) (w : World) :
  permission_granted w = true ->
  rejecting w = [] ->
  recorderExists w = true ->
  startMonitoring env w
  = Returned tt
      {| permission_granted := true; rejecting := []; metering := metering w;
         audioMode := Some monitoringAudioMode;
         recorders := recorders w ++ [{| prepared_with := None;
                                         recorder_state := Created |}];
         recording := recording w;
         intervalRef := intervalRef w;
         timers := timers w;
         dots := dots w; reported := reported w; clock := clock w |}.
Proof.
  intros Hp Hr He. destruct w as [pg rej met am recs rec iref ts ds rep clk].
  unfold recorderExists in He. simpl in Hp, Hr, He. subst pg rej.
  unfold startMonitoring, requestPermissionsAsync, setAudioModeAsync,
    prepareToRecordAsync, startAsync, newRecording, setInterval, native.
  unfold try_catch, bind, gets, modify, ret, throw, recorderExists.
  unfold recorder_at, with_intervalRef, with_timers, with_recording,
    with_recorders, with_audioMode.
  cbn [existsb negb permission_granted rejecting metering audioMode recorders
       recording intervalRef timers dots reported clock].
  rewrite existsb_app, He.
  reflexivity.
Qed.

Lemma filter_fresh_monitor
    (ts : list (TimerId * (Closure * RecordingId))) (n : TimerId)
    (c : Closure * RecordingId) :
  Forall (fun k => (k <= n)%nat) (map fst ts) ->
  filter (fun p => negb (Nat.eqb (fst p) (S n))) (ts ++ [(S n, c)]) = ts.
Proof.
  induction ts as [|[a x] ts IH]; simpl; intros H.
  - rewrite Nat.eqb_refl. reflexivity.
  - inversion H as [|? ? Ha Hts]; subst.
    replace (Nat.eqb a (S n)) with false by (symmetry; apply Nat.eqb_neq; lia).
    simpl. rewrite IH by exact Hts. reflexivity.
Qed.

Lemma monitors_below_max (ts : list (TimerId * (Closure * RecordingId))) :
  Forall (fun k => (k <= list_max (map fst ts))%nat) (map fst ts).
Proof. apply list_max_le. apply Nat.le_refl. Qed.

(** X18: stop undoes start.  On a device that grants the microphone,
    rejects no call and holds no prepared recorder, monitoring that was
    started and is stopped from a render that holds the recording leaves
    no interval behind (the timers are those from before the start), the
    ref and the state variable empty, the recorder unloaded, so that the
    next start finds the module free, and every dot on its way back to
    rest. *)
Theorem start_then_stop (env : Closure) (active callback : bool) (w : World) :
  permission_granted w = true ->
  rejecting w = [] ->
  recorderExists w = false ->
  exists w1 w2,
    startMonitoring env w = Returned tt w1
    /\ stopMonitoring (render active callback w1) w1 = Returned tt w2
    /\ timers w2 = timers w
    /\ intervalRef w2 = None
    /\ recording w2 = None
    /\ recorders w2 = recorders w ++ [{| prepared_with := Some recordingOptions;
                                         recorder_state := Unloaded |}]
    /\ recorderExists w2 = false
    /\ dots w2 = map (fun _ => RESET) (dots w).
Proof.
  intros Hp Hr He.
  eexists.
  exists {| permission_granted := true; rejecting := []; metering := metering w;
            audioMode := Some monitoringAudioMode;
            recorders := recorders w ++ [{| prepared_with := Some recordingOptions;
                                            recorder_state := Unloaded |}];
            recording := None; intervalRef := None; timers := timers w;
            dots := map (fun _ => RESET) (dots w);
            reported := reported w; clock := clock w |}.
  split; [apply startMonitoring_cooperative; assumption|].
  split; [|repeat split; try reflexivity;
           unfold recorderExists in *; cbn [recorders];
           rewrite existsb_app, He; reflexivity].
  unfold stopMonitoring, stopAndUnloadAsync, native, clearInterval, for_each_dot, render.
  unfold bind, gets, try_catch, modify, ret, throw, recorder_at.
  unfold with_dots, with_intervalRef, with_timers, with_recording, with_recorders.
  cbn [existsb negb permission_granted rejecting metering audioMode recorders
       recording intervalRef timers dots reported clock captured_recording].
  rewrite nth_middle.
  cbn [existsb negb permission_granted rejecting metering audioMode recorders
       recording intervalRef timers dots reported clock captured_recording
       recorder_state prepared_with].
  rewrite set_recorder_last.
  rewrite filter_fresh_monitor by apply monitors_below_max.
  rewrite map_const_seq. reflexivity.
Qed.

Lemma start_then_stop_witness :
  exists w1 w2,
    startMonitoring (render true true Scenario.device) Scenario.device = Returned tt w1
    /\ stopMonitoring (render false true w1) w1 = Returned tt w2
    /\ timers w2 = timers Scenario.device
    /\ intervalRef w2 = None
    /\ recording w2 = None
    /\ recorders w2 = recorders Scenario.device
                      ++ [{| prepared_with := Some recordingOptions;
                             recorder_state := Unloaded |}]
    /\ recorderExists w2 = false
    /\ dots w2 = map (fun _ => RESET) (dots Scenario.device).
Proof.
  apply (start_then_stop (render true true Scenario.device) false true Scenario.device);
    reflexivity.
Defined.

(** X19: a stop from the render that started monitoring does not release
    the recorder.  The cleanup of the effect belongs to the render in
    which the effect ran; its [recording] is the value from before the
    start.  Run after a start that succeeded (on a device that grants the
    microphone, rejects no call and held no prepared recorder) from a
    render without recording, it clears the interval and leaves the
    recorder running and the state variable set; and while that recorder
    runs a further start, from whichever render, starts nothing: no
    interval, no running recorder of its own. *)
Theorem cleanup_leaves_recorder_running (env : Closure) (w : World) :
  permission_granted w = true ->
  rejecting w = [] ->
  recorderExists w = false ->
  isActive env = true ->
  captured_recording env = None ->
  exists w1 w2,
    effect env w = Returned tt w1
    /\ cleanup env w1 = Returned tt w2
    /\ timers w2 = timers w
    /\ intervalRef w2 = None
    /\ recording w2 = Some (List.length (recorders w))
    /\ recorder_state (recorder_at (List.length (recorders w)) w2) = Running
    /\ forall env',
         exists w3,
           startMonitoring env' w2 = Returned tt w3
           /\ timers w3 = timers w
           /\ intervalRef w3 = None
           /\ recorders w3 = recorders w2 ++ [{| prepared_with := None;
                                                 recorder_state := Created |}].
Proof.
  intros Hp Hr He Ha Hc. eexists.
  exists {| permission_granted := true; rejecting := []; metering := metering w;
            audioMode := Some monitoringAudioMode;
            recorders := recorders w ++ [{| prepared_with := Some recordingOptions;
                                            recorder_state := Running |}];
            recording := Some (List.length (recorders w));
            intervalRef := None; timers := timers w;
            dots := map (fun _ => RESET) (dots w);
            reported := reported w; clock := clock w |}.
  unfold effect, cleanup. rewrite Ha.
  split; [apply startMonitoring_cooperative; assumption|].
  split.
  { unfold stopMonitoring, clearInterval, for_each_dot.
    unfold bind, gets, modify, ret. rewrite Hc.
    unfold with_dots, with_intervalRef, with_timers, recorder_at.
    cbn [permission_granted rejecting metering audioMode recorders
         recording intervalRef timers dots reported clock].
    rewrite filter_fresh_monitor by apply monitors_below_max.
    rewrite map_const_seq. reflexivity. }
  cbn [timers intervalRef recording recorders].
  do 3 (split; [reflexivity|]).
  split; [unfold recorder_at; cbn [recorders]; rewrite nth_middle; reflexivity|].
  intros env'. eexists.
  split.
  { apply startMonitoring_blocked; [reflexivity | reflexivity |].
    unfold recorderExists. cbn [recorders].
    rewrite existsb_app. cbn. apply orb_true_r. }
  cbn [timers intervalRef recorders]. repeat split; reflexivity.
Qed.

Lemma cleanup_leaves_recorder_running_witness :
  exists w1 w2,
    effect (render true true Scenario.device) Scenario.device = Returned tt w1
    /\ cleanup (render true true Scenario.device) w1 = Returned tt w2
    /\ timers w2 = timers Scenario.device
    /\ intervalRef w2 = None
    /\ recording w2 = Some (List.length (recorders Scenario.device))
    /\ recorder_state (recorder_at (List.length (recorders Scenario.device)) w2) = Running
    /\ forall env',
         exists w3,
           startMonitoring env' w2 = Returned tt w3
           /\ timers w3 = timers Scenario.device
           /\ intervalRef w3 = None
           /\ recorders w3 = recorders w2 ++ [{| prepared_with := None;
                                                 recorder_state := Created |}].
Proof.
  apply (cleanup_leaves_recorder_running (render true true Scenario.device)
           Scenario.device); reflexivity.
Defined.

(** X20: [startMonitoring] never throws, whichever native call rejects,
    and never touches the dots or the reported levels.  When the
    microphone is not granted it changes nothing at all.  It registers an
    interval only together with a recorder that is running and was
    prepared with the literal options, and then both the ref and the
    state variable are set; otherwise ref, timers and state variable are
    as before. *)
Theorem startMonitoring_safe (env : Closure) (w : World) :
  exists w',
    startMonitoring env w = Returned tt w'
    /\ (permission_granted w = false -> w' = w)
    /\ dots w' = dots w
    /\ reported w' = reported w
    /\ ((intervalRef w' = intervalRef w /\ timers w' = timers w
         /\ recording w' = recording w)
        \/ exists t r,
             timers w' = timers w ++ [(t, (env, r))]
             /\ intervalRef w' = Some t
             /\ recording w' = Some r
             /\ recorder_at r w' = {| prepared_with := Some recordingOptions;
                                      recorder_state := Running |}).
Proof.
  destruct w as [pg rej met am recs rec iref ts ds rep clk].
  unfold startMonitoring, requestPermissionsAsync, setAudioModeAsync,
    prepareToRecordAsync, startAsync, newRecording, setInterval, native.
  unfold try_catch, bind, gets, modify, ret, throw, recorderExists.
  unfold recorder_at, with_intervalRef, with_timers, with_recording,
    with_recorders, with_audioMode.
  cbn -[set_recorder nth existsb list_max].
  destruct (existsb (NativeCall_eqb RequestPermissions) rej);
    cbn -[set_recorder nth existsb list_max];
    [eexists; split; [reflexivity|]; cbn; auto 10|].
  destruct pg; cbn -[set_recorder nth existsb list_max];
    [|eexists; split; [reflexivity|]; cbn; auto 10].
  destruct (existsb (NativeCall_eqb SetAudioMode) rej);
    cbn -[set_recorder nth existsb list_max];
    [eexists; split; [reflexivity|]; cbn;
     split; [discriminate|]; auto 10|].
  destruct (existsb holds_recorder (recs ++ _));
    cbn -[set_recorder nth existsb list_max];
    [eexists; split; [reflexivity|]; cbn;
     split; [discriminate|]; auto 10|].
  destruct (existsb (NativeCall_eqb PrepareToRecord) rej);
    cbn -[set_recorder nth existsb list_max];
    [eexists; split; [reflexivity|]; cbn;
     split; [discriminate|]; auto 10|].
  rewrite !set_recorder_last.
  destruct (existsb (NativeCall_eqb StartRecording) rej);
    cbn -[set_recorder nth existsb list_max];
    [eexists; split; [reflexivity|]; cbn;
     split; [discriminate|]; auto 10|].
  rewrite !set_recorder_last. rewrite !nth_middle.
  eexists. split; [reflexivity|].
  cbn -[set_recorder nth existsb list_max].
  split; [discriminate|]. split; [reflexivity|]. split; [reflexivity|].
  right. eexists. eexists. split; [reflexivity|]. split; [reflexivity|].
  split; [reflexivity|]. rewrite nth_middle. reflexivity.
Qed.

(** X21: a tick of the 100 ms interval never throws and never touches
    capture: recorders, state variable, timers, ref and audio mode are as
    before and the number of dots is kept.  It reports at most one level,
    the one the recorder meters; and when the recorder of the callback is
    not running (a tick that arrives after the stop) nothing changes. *)
Theorem interval_callback_safe
    (sine : Z -> nat -> Q) (env : Closure) (r : RecordingId) (w : World) :
  exists w',
    interval_callback sine env r w = Returned tt w'
    /\ recorders w' = recorders w
    /\ recording w' = recording w
    /\ timers w' = timers w
    /\ intervalRef w' = intervalRef w
    /\ audioMode w' = audioMode w
    /\ List.length (dots w') = List.length (dots w)
    /\ (reported w' = reported w
        \/ exists level, metering w = Some level
                         /\ has_onAudioLevel env = true
                         /\ reported w' = reported w ++ [level])
    /\ (recorder_state (recorder_at r w) <> Running -> w' = w).
Proof.
  destruct w as [pg rej met am recs rec iref ts ds rep clk].
  unfold interval_callback, getStatusAsync, native, animateDots, for_each_dot.
  unfold try_catch, bind, gets, modify, ret, recorder_at.
  unfold with_dots, with_reported.
  cbn -[nth existsb isSpeaking seq List.length map wave idle].
  destruct (existsb (NativeCall_eqb GetStatus) rej);
    cbn -[nth existsb isSpeaking seq List.length map wave idle];
    [eexists; split; [reflexivity|]; cbn; auto 12|].
  destruct (recorder_state (nth r recs {| prepared_with := None;
                                          recorder_state := Unloaded |})) eqn:Hst;
    cbn -[nth existsb isSpeaking seq List.length map wave idle];
    try (eexists; split; [reflexivity|]; cbn; auto 12; fail).
  destruct met as [level|];
    cbn -[nth existsb isSpeaking seq List.length map wave idle];
    [|eexists; split; [reflexivity|]; cbn;
      do 7 (split; [auto|]); intros Hn; exfalso; apply Hn; reflexivity].
  destruct (has_onAudioLevel env) eqn:Hcb; destruct (isSpeaking level);
    cbn -[nth existsb isSpeaking seq List.length map wave idle];
    eexists; (split; [reflexivity|]);
    cbn -[nth existsb isSpeaking seq List.length map wave idle];
    do 5 (split; [reflexivity|]);
    (split; [rewrite length_map, length_seq; reflexivity|]);
    (split; [first [left; reflexivity
                   | right; exists level; repeat split; reflexivity]|]);
    intros Hn; exfalso; apply Hn; reflexivity.
Qed.

Lemma stopMonitoring_clears (env : Closure) (w : World) :
  intervalRef (state_of (stopMonitoring env w)) = None
  /\ forall t, intervalRef w = Some t ->
       existsb (fun p => Nat.eqb (fst p) t)
         (timers (state_of (stopMonitoring env w))) = false.
Proof.
  assert (Hf : forall (t : TimerId) (ts : list (TimerId * (Closure * RecordingId))),
            existsb (fun p => Nat.eqb (fst p) t)
              (filter (fun p => negb (Nat.eqb (fst p) t)) ts) = false).
  { intros t ts. induction ts as [|[a c] ts IH]; simpl; [reflexivity|].
    destruct (Nat.eqb a t) eqn:E; simpl; [exact IH|]. rewrite E. exact IH. }
  destruct w as [pg rej met am recs rec iref ts ds rep clk].
  unfold stopMonitoring, stopAndUnloadAsync, native, clearInterval, for_each_dot.
  unfold bind, gets, try_catch, modify, ret, throw, recorder_at.
  unfold with_dots, with_intervalRef, with_timers, with_recording, with_recorders.
  destruct iref as [t|]; destruct (captured_recording env) as [r|];
    cbn -[set_recorder nth existsb seq List.length map filter];
    try (destruct (existsb (NativeCall_eqb StopAndUnload) rej);
         cbn -[set_recorder nth existsb seq List.length map filter]);
    try (destruct (recorder_state (nth r recs {| prepared_with := None;
                                                 recorder_state := Unloaded |}));
         cbn -[set_recorder nth existsb seq List.length map filter]);
    (split; [reflexivity|]); intros t' Ht'; try discriminate;
    injection Ht' as <-; apply Hf.
Qed.

(** X22: stopping is safe in every state and from every closure, also a
    stale one: [stopMonitoring] never throws, even when unloading rejects
    or the recording was unloaded before; afterwards the ref is empty and
    the interval it referenced is no longer registered; and stopping a
    second time changes nothing. *)
Theorem stopMonitoring_always_safe (env : Closure) (w : World) :
  exists w',
    stopMonitoring env w = Returned tt w'
    /\ intervalRef w' = None
    /\ (forall t, intervalRef w = Some t ->
          existsb (fun p => Nat.eqb (fst p) t) (timers w') = false)
    /\ stopMonitoring env w' = Returned tt w'.
Proof.
  pose proof (stopMonitoring_never_throws env w) as Hn.
  pose proof (stopMonitoring_twice env w) as Ht.
  pose proof (stopMonitoring_clears env w) as [Hi Hc].
  destruct (stopMonitoring env w) as [[] w'|msg w'] eqn:E; [|discriminate].
  exists w'. cbn [state_of] in *. auto.
Qed.

End VisualizerMore.
